(** * gen_stub.py: a shallow embedding of the stub generator of kand

    The script [scripts/gen_stub.py] imports a package, enumerates its
    top-level names with [dir], keeps the names that are not magic
    ([__x__]), and for every function or builtin among them emits a
    declaration line, a docstring block and an ellipsis body.  The text
    is then written to an output path after [os.makedirs] on its
    directory.

    Python strings are modelled as Rocq [string]s (one [ascii] per code
    point), a module namespace (its [__dict__]) as a [gmap string pyobj],
    and the effects of the script (file system, standard output,
    exceptions) as a small state and exception monad. *)

From Stdlib Require Import String Ascii.
From stdpp Require Import base gmap strings list sorting.

Open Scope string_scope.

(* ------------------------------------------------------------------ *)
(** ** Python objects seen by the script *)

(** What [inspect.isfunction] / [inspect.isbuiltin] can tell apart. *)
Inductive kind :=
  | KFunction   (** a [def] function: [inspect.isfunction] *)
  | KBuiltin    (** a natively implemented function: [inspect.isbuiltin] *)
  | KClass
  | KModule
  | KData.

(** A signature as [inspect.Signature] renders it: the rendered
    parameters (including the [/] and [*] markers) and the optional
    return annotation. *)
Record signature := mk_signature {
  sig_params : list string;
  sig_return : option string
}.

(** A top-level attribute of the package.  [obj_signature = None] means
    that [inspect.signature] raises [ValueError] ("no signature found"),
    the documented failure for callables without signature metadata.
    [obj_doc] is the value of [inspect.getdoc] (already cleaned),
    [None] when the object carries no docstring. *)
Record pyobj := mk_pyobj {
  obj_kind : kind;
  obj_signature : option signature;
  obj_doc : option string
}.

(** A module namespace: its [__dict__]. *)
Abbreviation namespace := (gmap string pyobj).

(* ------------------------------------------------------------------ *)
(** ** Exceptions, state and the monad *)

Inductive exn :=
  | ModuleNotFoundError
  | AttributeError
  | ValueError
  | FileNotFoundError
  | FileExistsError
  | NotADirectoryError
  | IsADirectoryError
  | RecursionError
  | SystemExit (code : nat).

(** OS errors: the exceptions an [except OSError] clause catches. *)
Definition is_oserror (e : exn) : bool :=
  match e with
  | FileNotFoundError | FileExistsError | NotADirectoryError
  | IsADirectoryError => true
  | _ => false
  end.

(** The file system: the set of existing directories and the contents
    of the existing regular files, both keyed by path. *)
Record fsys := mk_fsys {
  fs_dirs : gset string;
  fs_files : gmap string string
}.

Record state := mk_state {
  st_fs : fsys;
  st_stdout : list string
}.

(** A computation that may change the state and may raise. *)
Definition M (A : Type) : Type := state -> (exn + A) * state.

Definition ret {A} (x : A) : M A := fun s => (inr x, s).
Definition raise {A} (e : exn) : M A := fun s => (inl e, s).
Definition bind {A B} (m : M A) (k : A -> M B) : M B :=
  fun s => match m s with
           | (inr x, s') => k x s'
           | (inl e, s') => (inl e, s')
           end.
(** [try m except e: h e] *)
Definition try_except {A} (m : M A) (h : exn -> M A) : M A :=
  fun s => match m s with
           | (inl e, s') => h e s'
           | r => r
           end.

Notation "x <- m ;; k" := (bind m (fun x => k))
  (at level 100, m at next level, right associativity).
Notation "m ;;; k" := (bind m (fun _ => k))
  (at level 100, right associativity).

Definition print (line : string) : M unit :=
  fun s => (inr tt, mk_state (st_fs s) (st_stdout s ++ [line])%list).

(* ------------------------------------------------------------------ *)
(** ** String helpers (Python [str] methods) *)

Definition chr_of (n : nat) : ascii := ascii_of_nat n.
Definition nl : string := String (chr_of 10) EmptyString.
Definition slash : ascii := "/"%char.

(** [s.startswith(p)] *)
Definition startswith (s p : string) : bool := String.prefix p s.

(** [s.endswith(p)] *)
Definition endswith (s p : string) : bool :=
  let n := String.length s in
  let m := String.length p in
  (m <=? n)%nat && String.eqb (String.substring (n - m) m s) p.

(** [sep.join(ls)] *)
Definition join (sep : string) (ls : list string) : string :=
  String.concat sep ls.

(** Line boundaries of [str.splitlines] among the code points 0..255. *)
Definition is_line_boundary (c : ascii) : bool :=
  let n := nat_of_ascii c in
  (Nat.eqb n 10 || Nat.eqb n 11 || Nat.eqb n 12 || Nat.eqb n 13
   || Nat.eqb n 28 || Nat.eqb n 29 || Nat.eqb n 30 || Nat.eqb n 133)%bool.

(** [str.splitlines()]: [cur] is the line read so far; a final line is
    kept only when it is not empty, and [\r\n] counts as one boundary. *)
Fixpoint splitlines_from (s cur : string) : list string :=
  match s with
  | EmptyString => if String.eqb cur "" then [] else [cur]
  | String c rest =>
      if (nat_of_ascii c =? 13)%nat then
        match rest with
        | String d rest' =>
            if (nat_of_ascii d =? 10)%nat then cur :: splitlines_from rest' ""
            else cur :: splitlines_from rest ""
        | EmptyString => [cur]
        end
      else if is_line_boundary c then cur :: splitlines_from rest ""
      else splitlines_from rest (cur ++ String c EmptyString)
  end.

Definition splitlines (s : string) : list string := splitlines_from s "".

(* ------------------------------------------------------------------ *)
(** ** Symbol enumeration: [dir(pkg)] and the magic-name filter *)

(** Python's ordering of [str]: lexicographic on code points. *)
Definition str_le (a b : string) : Prop := String.leb a b = true.

#[global] Instance str_le_dec : RelDecision str_le :=
  fun a b => decide (String.leb a b = true).

(** [dir(module)] is the sorted list of the keys of its [__dict__]. *)
Definition dir (ns : namespace) : list string :=
  merge_sort str_le (map fst (map_to_list ns)).

(** [name.startswith("__") and name.endswith("__")] *)
Definition is_magic (name : string) : bool :=
  startswith name "__" && endswith name "__".

(** Lines 23-25: [public_names]. *)
Definition public_names (ns : namespace) : list string :=
  filter (fun name => negb (is_magic name) = true) (dir ns).

(* ------------------------------------------------------------------ *)
(** ** Introspection: [getattr], [inspect.isfunction], [inspect.isbuiltin],
       [inspect.signature], [inspect.getdoc] *)

(** [getattr(pkg, name)] on a module without [__getattr__]. *)
Definition getattr (ns : namespace) (name : string) : M pyobj :=
  match ns !! name with
  | Some v => ret v
  | None => raise AttributeError
  end.

Definition isfunction (v : pyobj) : bool :=
  match obj_kind v with KFunction => true | _ => false end.

Definition isbuiltin (v : pyobj) : bool :=
  match obj_kind v with KBuiltin => true | _ => false end.

(** [str(sig)]: [(p1, p2, ...)] followed by [ -> ann] when annotated. *)
Definition sig_str (sg : signature) : string :=
  "(" ++ join ", " (sig_params sg) ++ ")" ++
  match sig_return sg with
  | Some r => " -> " ++ r
  | None => ""
  end.

Definition inspect_signature (v : pyobj) : M signature :=
  match obj_signature v with
  | Some sg => ret sg
  | None => raise ValueError
  end.

(** [inspect.getdoc(attr)]: [None] or the cleaned docstring. *)
Definition getdoc (v : pyobj) : option string := obj_doc v.

(* ------------------------------------------------------------------ *)
(** ** Rendering (lines 27-69) *)

Definition dq : string := String (chr_of 34) EmptyString.
(** The docstring delimiter: three double-quote characters. *)
Definition tq : string := dq ++ dq ++ dq.

(** Lines 28-38: the header of [pyi_lines]. *)
Definition header_lines (package_name : string) : list string :=
  ["# Auto-generated stub file for " ++ package_name;
   tq;
   "Type hints and function signatures stub file for IDE autocompletion.";
   "Auto-generated to avoid manual maintenance. Can be enhanced with more precise type annotations.";
   tq;
   ""].

(** Lines 46-49:
    [try: sig = str(inspect.signature(attr)) except ValueError: sig = "(...)"] *)
Definition signature_text (attr : pyobj) : M string :=
  try_except (sg <- inspect_signature attr ;; ret (sig_str sg))
    (fun e => match e with
              | ValueError => ret "(...)"
              | _ => raise e
              end).

(** Line 52: [doc = inspect.getdoc(attr) or ""] *)
Definition doc_of (attr : pyobj) : string :=
  match getdoc attr with
  | Some d => d
  | None => ""
  end.

(** Line 53: [doc_lines = doc.splitlines() if doc else []] *)
Definition doc_lines_of (doc : string) : list string :=
  if String.eqb doc "" then [] else splitlines doc.

Definition fallback_doc : string := "No docstring available.".

(** Lines 41-69: the loop over [public_names], appending to [pyi_lines]. *)
Fixpoint emit_loop (pkg : namespace) (names : list string)
    (pyi_lines : list string) : M (list string) :=
  match names with
  | [] => ret pyi_lines
  | name :: rest =>
      attr <- getattr pkg name ;;
      if isfunction attr || isbuiltin attr then
        sig <- signature_text attr ;;
        let doc := doc_of attr in
        let doc_lines := doc_lines_of doc in
        let pyi_lines := (pyi_lines ++ [("def " ++ name ++ sig ++ ":")%string])%list in
        let pyi_lines :=
          match doc_lines with
          | _ :: _ =>
              (pyi_lines ++ [("    " ++ tq)%string]
                 ++ map (fun line => ("    " ++ line)%string) doc_lines
                 ++ [("    " ++ tq)%string])%list
          | [] => (pyi_lines ++ [("    " ++ tq ++ fallback_doc ++ tq)%string])%list
          end in
        let pyi_lines := (pyi_lines ++ ["    ..."; ""])%list in
        emit_loop pkg rest pyi_lines
      else emit_loop pkg rest pyi_lines
  end.

(** Lines 22-69: the lines of the stub for an imported package. *)
Definition build_lines (package_name : string) (pkg : namespace)
    : M (list string) :=
  emit_loop pkg (public_names pkg) (header_lines package_name).

(* ------------------------------------------------------------------ *)
(** ** Paths: [posixpath.split] and [posixpath.dirname] *)

Fixpoint take_while (f : ascii -> bool) (l : list ascii) : list ascii :=
  match l with
  | [] => []
  | c :: l' => if f c then c :: take_while f l' else []
  end.

Fixpoint drop_while (f : ascii -> bool) (l : list ascii) : list ascii :=
  match l with
  | [] => []
  | c :: l' => if f c then drop_while f l' else l
  end.

Definition is_slash (c : ascii) : bool := Ascii.eqb c slash.
Definition not_slash (c : ascii) : bool := negb (is_slash c).

(** [posixpath.split(p)]:
    [i = p.rfind('/') + 1; head, tail = p[:i], p[i:];
     if head and head != '/'*len(head): head = head.rstrip('/')].
    The string is read backwards. *)
Definition py_split (p : string) : string * string :=
  let r := rev (list_ascii_of_string p) in
  let tail_r := take_while not_slash r in
  let head_r := drop_while not_slash r in
  let head_r :=
    if existsb not_slash head_r then drop_while is_slash head_r else head_r in
  (string_of_list_ascii (rev head_r), string_of_list_ascii (rev tail_r)).

(** [os.path.dirname(p)] *)
Definition dirname (p : string) : string := fst (py_split p).

(* ------------------------------------------------------------------ *)
(** ** The operating system *)

(** Paths are looked up as written: the model does not resolve [.] or
    [..] components (nor symbolic links), so the theorems that run the
    script on a path keep to paths whose components are neither
    (see [component] below).  The kernel ignores trailing slashes of a
    directory path. *)
Definition os_norm (p : string) : string :=
  let r := list_ascii_of_string p in
  if existsb not_slash r
  then string_of_list_ascii (rev (drop_while is_slash (rev r)))
  else p.

Definition is_file (fs : fsys) (p : string) : bool :=
  bool_decide (is_Some (fs_files fs !! os_norm p)).

(** [os.path.isdir]: the empty path names nothing; the root always exists. *)
Definition os_isdir (fs : fsys) (p : string) : bool :=
  negb (String.eqb p "") &&
  (String.eqb (os_norm p) "/" || bool_decide (os_norm p ∈ fs_dirs fs)).

(** [os.path.exists] *)
Definition os_exists (fs : fsys) (p : string) : bool :=
  os_isdir fs p || (negb (String.eqb p "") && is_file fs p).

Definition path_exists (p : string) : M bool :=
  fun s => (inr (os_exists (st_fs s) p), s).

Definition path_isdir (p : string) : M bool :=
  fun s => (inr (os_isdir (st_fs s) p), s).

(** The error of a path whose parent directory is missing. *)
Definition parent_error (fs : fsys) (p : string) : option exn :=
  let parent := dirname (os_norm p) in
  if String.eqb parent "" || os_isdir fs parent then None
  else if is_file fs parent then Some NotADirectoryError
  else Some FileNotFoundError.

(** [os.mkdir(name)] *)
Definition os_mkdir (name : string) : M unit :=
  fun s =>
    let fs := st_fs s in
    if String.eqb name "" then (inl FileNotFoundError, s)
    else if os_exists fs name then (inl FileExistsError, s)
    else match parent_error fs name with
         | Some e => (inl e, s)
         | None =>
             (inr tt, mk_state (mk_fsys ({[ os_norm name ]} ∪ fs_dirs fs)
                                        (fs_files fs))
                               (st_stdout s))
         end.

(** The path ends with a slash. *)
Definition trailing_slash (p : string) : bool :=
  match rev (list_ascii_of_string p) with
  | x :: _ => is_slash x
  | [] => false
  end.

(** [open(path, "w")]: create the file or truncate it to empty.  A path
    ending with a slash names a directory for the kernel: [O_CREAT] on it
    is refused with [EISDIR], also when it names a regular file. *)
Definition open_w (path : string) : M unit :=
  fun s =>
    let fs := st_fs s in
    if String.eqb path "" then (inl FileNotFoundError, s)
    else if os_isdir fs path then (inl IsADirectoryError, s)
    else match parent_error fs path with
         | Some e => (inl e, s)
         | None =>
             if trailing_slash path then (inl IsADirectoryError, s)
             else
               (inr tt, mk_state (mk_fsys (fs_dirs fs)
                                          (<[ path := "" ]> (fs_files fs)))
                                 (st_stdout s))
         end.

(** [f.write(text)] on the file just opened, flushed when the [with]
    block closes it.  Every string of this development is made of code
    points below 256, which UTF-8 always encodes, so the write itself
    does not raise. *)
Definition file_write (path text : string) : M unit :=
  fun s =>
    let fs := st_fs s in
    (inr tt,
     mk_state (mk_fsys (fs_dirs fs)
                       (<[ path := (default "" (fs_files fs !! path) ++ text)%string ]>
                          (fs_files fs)))
              (st_stdout s)).

(** Lines 75-76: [with open(path, "w", encoding="utf-8") as f: f.write(text)]. *)
Definition write_text (path text : string) : M unit :=
  open_w path ;;; file_write path text.

(** [os.makedirs(name, exist_ok=exist_ok)] from the Python library
    ([os.py]).  Each recursive call is on a strictly shorter path, so
    [fuel = length name + 1] calls never run out.  Python's own recursion
    limit (1000 frames by default, one frame per missing level here) is
    not modelled: the theorems on creating directories keep to paths of
    at most 1000 code points, hence at most 500 levels. *)
Fixpoint makedirs_fuel (fuel : nat) (name : string) (exist_ok : bool)
    : M unit :=
  match fuel with
  | O => raise RecursionError
  | S fuel' =>
      let '(head, tail) := py_split name in
      let '(head, tail) :=
        if String.eqb tail "" then py_split head else (head, tail) in
      returned <-
        (head_exists <- path_exists head ;;
         if negb (String.eqb head "") && negb (String.eqb tail "")
            && negb head_exists then
           try_except (makedirs_fuel fuel' head exist_ok)
             (fun e => match e with
                       | FileExistsError => ret tt
                       | _ => raise e
                       end) ;;;
           ret (String.eqb tail ".")
         else ret false) ;;
      if returned then ret tt
      else
        try_except (os_mkdir name)
          (fun e =>
             if is_oserror e then
               (isdir <- path_isdir name ;;
                if negb exist_ok || negb isdir then raise e else ret tt)
             else raise e)
  end.

Definition makedirs (name : string) (exist_ok : bool) : M unit :=
  makedirs_fuel (S (String.length name)) name exist_ok.

(* ------------------------------------------------------------------ *)
(** ** [generate_stub_file] and the command line *)

(** [importlib.import_module]: [sys_modules] maps the importable package
    names to their namespaces; any other name fails to import. *)
Definition import_module (sys_modules : gmap string namespace)
    (package_name : string) : M namespace :=
  match sys_modules !! package_name with
  | Some pkg => ret pkg
  | None => raise ModuleNotFoundError
  end.

(** Lines 9-77. *)
Definition generate_stub_file (sys_modules : gmap string namespace)
    (package_name output_path : string) : M unit :=
  pkg <- import_module sys_modules package_name ;;
  pyi_lines <- build_lines package_name pkg ;;
  makedirs (dirname output_path) true ;;;
  write_text output_path (join nl pyi_lines) ;;;
  print ("Generated: " ++ output_path).

Definition usage_line : string :=
  "Usage: python gen_stub.py <package_name> <output_path>".
Definition example_line : string :=
  "Example: python gen_stub.py kand python/kand/_kand.pyi".

(** Lines 80-93: [argv] is [sys.argv], the script name first. *)
Definition main (sys_modules : gmap string namespace) (argv : list string)
    : M unit :=
  if (length argv <? 3)%nat then
    print usage_line ;;;
    print example_line ;;;
    raise (SystemExit 1)
  else
    let pkg_name := nth 1 argv "" in
    let output_path := nth 2 argv "" in
    generate_stub_file sys_modules pkg_name output_path.

(* ------------------------------------------------------------------ *)
(** ** The data model and renderer of the specification

    These definitions follow the words of the specification (sections 3
    and 4.5), not the script; the lemmas below compare the script with
    them. *)

(** A CallableRecord: name, signature text, documentation lines. *)
Record callable_record := mk_record {
  rec_name : string;
  rec_signature_text : string;
  rec_doc_lines : list string
}.

(** Section 4.3: function-like invocable units, interpreted or native. *)
Definition invocable (v : pyobj) : bool :=
  match obj_kind v with
  | KFunction | KBuiltin => true
  | KClass | KModule | KData => false
  end.

(** Section 4.4: the signature text, [(...)] when none is available, and
    the documentation split into lines, empty when there is none. *)
Definition record_of (name : string) (v : pyobj) : callable_record :=
  mk_record name
    (match obj_signature v with
     | Some sg => sig_str sg
     | None => "(...)"
     end)
    (match getdoc v with
     | Some d => doc_lines_of d
     | None => []
     end).

Definition records_of_names (pkg : namespace) (names : list string)
    : list callable_record :=
  omap (fun name =>
          match pkg !! name with
          | Some v => if invocable v then Some (record_of name v) else None
          | None => None
          end) names.

(** The records of a package, in enumeration order. *)
Definition records_of (pkg : namespace) : list callable_record :=
  records_of_names pkg (public_names pkg).

Definition indent : string := "    ".

(** Section 4.5, step 2, for one record. *)
Definition record_block (r : callable_record) : list string :=
  [("def " ++ rec_name r ++ rec_signature_text r ++ ":")%string] ++
  match rec_doc_lines r with
  | [] => [(indent ++ tq ++ fallback_doc ++ tq)%string]
  | ls => [(indent ++ tq)%string]
            ++ map (fun l => (indent ++ l)%string) ls
            ++ [(indent ++ tq)%string]
  end ++
  [(indent ++ "...")%string; ""].

(** Section 4.5: header, then the records in order. *)
Definition render_spec (package_name : string) (recs : list callable_record)
    : list string :=
  (header_lines package_name ++ concat (map record_block recs))%list.

(* ------------------------------------------------------------------ *)
(** ** Vocabulary of the statements *)

(** Names that contain no parenthesis: every Python identifier. *)
Definition has_paren (n : string) : bool :=
  existsb (fun c => Ascii.eqb c "("%char) (list_ascii_of_string n).

(** A declaration line of [n]: it starts with [def <n>(]. *)
Definition is_decl_of (n line : string) : bool :=
  String.prefix ("def " ++ n ++ "(") line.

(** A line that holds no line boundary of [str.splitlines]. *)
Definition no_boundary (l : string) : bool :=
  forallb (fun c => negb (is_line_boundary c)) (list_ascii_of_string l).

(** A state change that keeps the files and the output and only adds
    directories. *)
Definition only_adds_dirs (s s' : state) : Prop :=
  fs_files (st_fs s') = fs_files (st_fs s) /\ st_stdout s' = st_stdout s /\
  fs_dirs (st_fs s) ⊆ fs_dirs (st_fs s').

(** A computation whose every run, raising or not, only adds directories. *)
Definition keeps {A} (m : M A) : Prop := forall s, only_adds_dirs s (snd (m s)).

(** Paths made of clean components. *)
Definition chars (s : string) : list ascii := list_ascii_of_string s.

(** A path component as [a/b/c] has them: not empty, no slash, not [.]. *)
Definition clean (c : string) : bool :=
  negb (String.eqb c "") && negb (existsb is_slash (chars c))
  && negb (String.eqb c ".").

(** A path component on which the file-system model agrees with Linux:
    clean, not [..], without a NUL character (which [os.mkdir] and [open]
    refuse with [ValueError]), and of at most 127 code points, that is at
    most 254 bytes of UTF-8, within [NAME_MAX]. *)
Definition component (c : string) : bool :=
  clean c && negb (String.eqb c "..")
  && negb (existsb (fun a => Ascii.eqb a (chr_of 0)) (chars c))
  && (String.length c <=? 127)%nat.

(** The directory prefixes [c1], [c1/c2], ... of a path [c1/.../cn]. *)
Definition prefixes (cs : list string) : list string :=
  map (fun k => join "/" (take k cs)) (seq 1 (length cs)).

(** A path that is not empty and does not end with a slash. *)
Definition tidy (p : string) : Prop :=
  exists x l, rev (chars p) = x :: l /\ is_slash x = false.

(* ------------------------------------------------------------------ *)
(** ** A sample package

    A namespace in the shape of the [kand] extension module: native
    functions with and without signature metadata, a Python helper with
    an empty docstring, a class and module dunders. *)
Definition sma_obj : pyobj :=
  mk_pyobj KBuiltin (Some (mk_signature ["data"; "period"] (Some "list")))
    (Some ("Simple moving average." ++ nl ++ nl ++ "Args: data, period."))%string.
Definition ema_obj : pyobj := mk_pyobj KBuiltin None None.
Definition helper_obj : pyobj :=
  mk_pyobj KFunction (Some (mk_signature ["x"] None)) (Some "").

Definition kand_sample : namespace :=
  <["__doc__" := mk_pyobj KData None (Some "kand")]>
  (<["__name__" := mk_pyobj KData None None]>
  (<["sma" := sma_obj]>
  (<["ema" := ema_obj]>
  (<["_helper" := helper_obj]>
  (<["Config" := mk_pyobj KClass None (Some "Settings.")]> ∅))))).

(** The same package with an extra data attribute: same records. *)
Definition kand_sample_v2 : namespace :=
  <["VERSION" := mk_pyobj KData None None]> kand_sample.

Definition sys_sample : gmap string namespace := {[ "kand" := kand_sample ]}.
Definition sys_sample_v2 : gmap string namespace :=
  {[ "kand" := kand_sample_v2 ]}.

(** A file system holding the directory [a] and the regular file [a/b]. *)
Definition state_file_sample : state :=
  mk_state (mk_fsys {[ "a" ]} {[ "a/b" := "data" ]}) [].

(** A file system holding the directory [a] and nothing else. *)
Definition state_sample : state := mk_state (mk_fsys {[ "a" ]} ∅) [].

(* ------------------------------------------------------------------ *)
(** ** Lemmas *)

Lemma elem_of_dir (ns : namespace) (n : string) :
  n ∈ dir ns <-> is_Some (ns !! n).
Proof.
  unfold dir. rewrite (merge_sort_Permutation str_le _).
  rewrite list_elem_of_fmap. split.
  - intros [[k v] [-> Hin]]. apply elem_of_map_to_list in Hin. simpl. by eexists.
  - intros [v Hv]. exists (n, v). split; [done|]. by apply elem_of_map_to_list.
Qed.

Lemma NoDup_dir (ns : namespace) : NoDup (dir ns).
Proof.
  unfold dir. rewrite (merge_sort_Permutation str_le _).
  apply NoDup_fst_map_to_list.
Qed.

Lemma elem_of_public_names (ns : namespace) (n : string) :
  n ∈ public_names ns <-> is_Some (ns !! n) /\ is_magic n = false.
Proof.
  unfold public_names. rewrite list_elem_of_filter, elem_of_dir.
  destruct (is_magic n); simpl; intuition congruence.
Qed.

Lemma NoDup_public_names (ns : namespace) : NoDup (public_names ns).
Proof. apply NoDup_filter, NoDup_dir. Qed.

Lemma signature_text_run (attr : pyobj) (s : state) :
  signature_text attr s = (inr (rec_signature_text (record_of "" attr)), s).
Proof.
  unfold signature_text, try_except, bind, inspect_signature, record_of.
  simpl. by destruct (obj_signature attr).
Qed.

Lemma emit_loop_run (pkg : namespace) (names : list string)
    (acc : list string) (s : state) :
  Forall (fun n => is_Some (pkg !! n)) names ->
  emit_loop pkg names acc s =
    (inr (acc ++ concat (map record_block (records_of_names pkg names)))%list, s).
Proof.
  revert acc. induction names as [|name rest IH]; intros acc Hall; simpl.
  - by rewrite app_nil_r.
  - apply Forall_cons in Hall as [[v Hv] Hrest].
    unfold getattr, bind at 1. rewrite Hv. simpl.
    unfold invocable, isfunction, isbuiltin.
    destruct (obj_kind v) eqn:Hk; simpl; try (by apply IH).
    all: unfold bind; rewrite signature_text_run; rewrite IH by done;
      do 2 f_equal; unfold record_block, record_of, doc_of, getdoc; simpl;
      destruct (obj_doc v) as [d|]; simpl;
      [destruct (doc_lines_of d); simpl|];
      rewrite <- !app_assoc; simpl; rewrite <- ?app_assoc; done.
Qed.

Lemma build_lines_run (package_name : string) (pkg : namespace) (s : state) :
  build_lines package_name pkg s =
    (inr (render_spec package_name (records_of pkg)), s).
Proof.
  unfold build_lines, render_spec, records_of. apply emit_loop_run.
  apply Forall_forall. intros n Hn. by apply elem_of_public_names in Hn as [? _].
Qed.

Lemma record_in_records (pkg : namespace) (name : string) (v : pyobj) :
  pkg !! name = Some v -> is_magic name = false -> invocable v = true ->
  record_of name v ∈ records_of pkg.
Proof.
  intros Hv Hm Hi. unfold records_of, records_of_names.
  apply list_elem_of_omap. exists name. split.
  - apply elem_of_public_names. split; [by eexists|done].
  - by rewrite Hv, Hi.
Qed.

Lemma block_in_render (package_name : string) (recs : list callable_record)
    (r : callable_record) :
  r ∈ recs ->
  exists pre post,
    render_spec package_name recs = (pre ++ record_block r ++ post)%list.
Proof.
  intros Hin. apply list_elem_of_split in Hin as (l1 & l2 & ->).
  unfold render_spec. rewrite map_app, concat_app. simpl.
  exists (header_lines package_name ++ concat (map record_block l1))%list,
    (concat (map record_block l2)).
  by rewrite <- !app_assoc.
Qed.

Lemma eligible_invocable (v : pyobj) :
  (isfunction v || isbuiltin v) = invocable v.
Proof. unfold isfunction, isbuiltin, invocable. by destruct (obj_kind v). Qed.

(** Once the package is imported, the run is [makedirs], the write of the
    rendered lines joined by newlines, and the final print. *)
Lemma generate_imported (sys_modules : gmap string namespace)
    (package_name output_path : string) (pkg : namespace) (s : state) :
  sys_modules !! package_name = Some pkg ->
  generate_stub_file sys_modules package_name output_path s =
    (makedirs (dirname output_path) true ;;;
     write_text output_path
       (join nl (render_spec package_name (records_of pkg))) ;;;
     print ("Generated: " ++ output_path)) s.
Proof.
  intros H. unfold generate_stub_file, import_module. rewrite H.
  unfold bind at 1, ret at 1. cbv beta iota.
  unfold bind at 1. rewrite build_lines_run. reflexivity.
Qed.

#[local] Arguments ascii_dec : simpl never.

Lemma prefix_app_same (p x y : string) :
  String.prefix (p ++ x) (p ++ y) = String.prefix x y.
Proof.
  induction p as [|a p IH]; simpl; [done|].
  destruct (ascii_dec a a); [done | congruence].
Qed.

Lemma prefix_name_paren (n m rest : string) :
  has_paren n = false -> has_paren m = false ->
  String.prefix (n ++ "(") (m ++ String "(" rest) = true <-> n = m.
Proof.
  revert m. induction n as [|a n IH]; intros m Hn Hm; destruct m as [|c m];
    simpl in *.
  - destruct rest; simpl; split; done.
  - apply orb_false_iff in Hm as [Hc _].
    destruct (ascii_dec "(" c) as [<-|]; [by rewrite Ascii.eqb_refl in Hc|].
    split; intros; congruence.
  - apply orb_false_iff in Hn as [Ha _].
    destruct (ascii_dec a "(") as [->|]; [by rewrite Ascii.eqb_refl in Ha|].
    split; intros; congruence.
  - apply orb_false_iff in Hn as [_ Hn], Hm as [_ Hm].
    destruct (ascii_dec a c) as [<-|]; [|split; intros; congruence].
    rewrite IH by done. split; [by intros ->|by intros [=]].
Qed.

Lemma signature_text_paren (name : string) (v : pyobj) :
  exists rest, rec_signature_text (record_of name v) = String "(" rest.
Proof.
  unfold record_of; simpl. destruct (obj_signature v); simpl; by eexists.
Qed.

Lemma not_decl_indented (n x : string) : is_decl_of n (indent ++ x) = false.
Proof. reflexivity. Qed.

Lemma not_decl_empty (n : string) : is_decl_of n "" = false.
Proof. reflexivity. Qed.

Lemma filter_no_decl (n : string) (ls : list string) :
  Forall (fun l => is_decl_of n l = false) ls ->
  filter (fun l => is_decl_of n l = true) ls = [].
Proof.
  induction 1 as [|x ls Hx _ IH]; [done|].
  rewrite filter_cons_False; [done|]. by rewrite Hx.
Qed.

Lemma count_decl_block (n : string) (r : callable_record) :
  has_paren n = false -> has_paren (rec_name r) = false ->
  (exists rest, rec_signature_text r = String "(" rest) ->
  length (filter (fun l => is_decl_of n l = true) (record_block r)) =
    if String.eqb (rec_name r) n then 1 else 0.
Proof.
  intros Hn Hr [rest Hsig]. unfold record_block.
  rewrite filter_app, length_app.
  rewrite (filter_no_decl n (_ ++ _)).
  2:{ apply Forall_app. split.
      - destruct (rec_doc_lines r) as [|d ds].
        + constructor; [apply not_decl_indented|constructor].
        + apply Forall_app. split; [constructor; [apply not_decl_indented|constructor]|].
          apply Forall_app. split; [|constructor; [apply not_decl_indented|constructor]].
          apply Forall_forall. intros x Hx.
          apply list_elem_of_fmap in Hx as (y & -> & _). apply not_decl_indented.
      - constructor; [apply not_decl_indented|].
        constructor; [apply not_decl_empty|constructor]. }
  assert (Hd : is_decl_of n ("def " ++ rec_name r ++ rec_signature_text r ++ ":")
               = String.eqb (rec_name r) n).
  { unfold is_decl_of. rewrite prefix_app_same, Hsig.
    destruct (String.eqb_spec (rec_name r) n) as [<-|Hne].
    - by apply prefix_name_paren.
    - destruct (String.prefix _ _) eqn:E; [|done].
      apply prefix_name_paren in E; [congruence|done|done]. }
  simpl. rewrite filter_cons, Hd.
  destruct (String.eqb (rec_name r) n); reflexivity.
Qed.

Lemma count_decl_header (package_name n : string) :
  filter (fun l => is_decl_of n l = true) (header_lines package_name) = [].
Proof. apply filter_no_decl. repeat constructor. Qed.

Lemma count_decl_records (n : string) (recs : list callable_record) :
  has_paren n = false ->
  Forall (fun r => has_paren (rec_name r) = false /\
                   exists rest, rec_signature_text r = String "(" rest) recs ->
  length (filter (fun l => is_decl_of n l = true) (concat (map record_block recs)))
  = length (filter (fun r => String.eqb (rec_name r) n = true) recs).
Proof.
  intros Hn. induction 1 as [|r recs [Hr Hs] _ IH]; [done|].
  change (concat (map record_block (r :: recs)))
    with (record_block r ++ concat (map record_block recs))%list.
  rewrite filter_app, length_app, count_decl_block, IH by done.
  rewrite filter_cons. by destruct (String.eqb (rec_name r) n).
Qed.

Lemma records_of_names_cons (pkg : namespace) (x : string) (names : list string) :
  records_of_names pkg (x :: names) =
    match pkg !! x with
    | Some v => if invocable v then record_of x v :: records_of_names pkg names
                else records_of_names pkg names
    | None => records_of_names pkg names
    end.
Proof.
  unfold records_of_names. simpl.
  destruct (pkg !! x); [destruct (invocable p)|]; reflexivity.
Qed.

Lemma count_records_named (pkg : namespace) (names : list string) (n : string) :
  NoDup names ->
  length (filter (fun r => String.eqb (rec_name r) n = true)
                 (records_of_names pkg names)) =
  if bool_decide (n ∈ names) then
    match pkg !! n with
    | Some v => if invocable v then 1 else 0
    | None => 0
    end
  else 0.
Proof.
  induction 1 as [|x names Hx Hnd IH]; [done|].
  rewrite records_of_names_cons.
  destruct (String.eqb_spec x n) as [<-|Hne].
  - rewrite bool_decide_true by (left). rewrite bool_decide_false in IH by done.
    destruct (pkg !! x) as [v|] eqn:Hv; [destruct (invocable v)|];
      [rewrite filter_cons; cbn [rec_name record_of];
       rewrite String.eqb_refl, decide_True by done; simpl|..];
      by rewrite IH.
  - rewrite (bool_decide_ext (n ∈ x :: names) (n ∈ names))
      by (rewrite elem_of_cons; naive_solver).
    destruct (pkg !! x) as [v|] eqn:Hv; [destruct (invocable v)|];
      [rewrite filter_cons; cbn [rec_name record_of];
       rewrite (proj2 (String.eqb_neq x n) Hne), decide_False by done|..];
      by rewrite IH.
Qed.


Lemma drop_while_all (f : ascii -> bool) (l : list ascii) :
  forallb f l = true -> drop_while f l = [].
Proof.
  induction l as [|c l IH]; simpl; [done|].
  intros [-> Hl]%andb_true_iff. by apply IH.
Qed.

(** A path without a slash has an empty [dirname]. *)
Lemma dirname_no_slash (p : string) :
  existsb is_slash (list_ascii_of_string p) = false -> dirname p = "".
Proof.
  intros H. unfold dirname, py_split. simpl.
  rewrite drop_while_all; [done|].
  apply forallb_forall. intros c Hc. apply in_rev in Hc.
  unfold not_slash. apply negb_true_iff.
  destruct (is_slash c) eqn:E; [|done].
  assert (existsb is_slash (list_ascii_of_string p) = true) as Ht
    by (apply existsb_exists; eauto).
  congruence.
Qed.


(** *** Paths made of clean components *)

#[local] Arguments String.append : simpl nomatch.

Lemma chars_app (s1 s2 : string) : chars (s1 ++ s2) = (chars s1 ++ chars s2)%list.
Proof. induction s1 as [|ch s1 IH]; simpl; [done|]. unfold chars in *. by rewrite IH. Qed.

Lemma string_app_assoc (a b c : string) : (a ++ b ++ c = (a ++ b) ++ c)%string.
Proof. induction a as [|ch a IH]; simpl; [done|]. by rewrite IH. Qed.

Lemma string_length_app (a b : string) :
  String.length (a ++ b) = (String.length a + String.length b)%nat.
Proof. induction a as [|ch a IH]; simpl; [done|]. by rewrite IH. Qed.

Lemma join_snoc (cs : list string) (c : string) :
  cs <> [] -> join "/" (cs ++ [c]) = (join "/" cs ++ "/" ++ c)%string.
Proof.
  unfold join. induction cs as [|x [|y ys] IH]; intros Hne; [done|done|].
  change (String.concat "/" ((x :: y :: ys) ++ [c])%list)
    with (x ++ "/" ++ String.concat "/" ((y :: ys) ++ [c])%list)%string.
  change (String.concat "/" (x :: y :: ys))
    with (x ++ "/" ++ String.concat "/" (y :: ys))%string.
  rewrite IH by done. by rewrite !string_app_assoc.
Qed.

Lemma clean_chars (c : string) :
  clean c = true ->
  exists x l, rev (chars c) = x :: l /\ is_slash x = false /\
    forallb not_slash (rev (chars c)) = true.
Proof.
  unfold clean. intros [[Hne Hsl]%andb_true_iff _]%andb_true_iff.
  apply negb_true_iff in Hne, Hsl.
  assert (Hall : forallb not_slash (rev (chars c)) = true).
  { apply forallb_forall. intros y Hy%in_rev. unfold not_slash.
    apply negb_true_iff. destruct (is_slash y) eqn:E; [|done].
    assert (existsb is_slash (chars c) = true) by (apply existsb_exists; eauto).
    congruence. }
  destruct (rev (chars c)) as [|x l] eqn:Hr.
  - apply (f_equal (@rev ascii)) in Hr. rewrite rev_involutive in Hr.
    destruct c; [done|discriminate].
  - exists x, l. split; [done|]. split; [|done].
    simpl in Hall. apply andb_true_iff in Hall as [Hx _].
    unfold not_slash in Hx. by apply negb_true_iff in Hx.
Qed.

Lemma rev_chars_join_snoc (cs : list string) (c : string) :
  rev (chars (join "/" (cs ++ [c]))) =
    (rev (chars c) ++ match cs with
                      | [] => []
                      | _ => "/"%char :: rev (chars (join "/" cs))
                      end)%list.
Proof.
  destruct cs as [|x xs]; [by rewrite app_nil_r|].
  rewrite join_snoc by done. rewrite !chars_app, !rev_app_distr.
  by rewrite <- app_assoc.
Qed.

Lemma tidy_join (cs : list string) :
  cs <> [] -> Forall (fun c => clean c = true) cs -> tidy (join "/" cs).
Proof.
  intros Hne Hcl. destruct (exists_last Hne) as (cs' & c & ->).
  apply Forall_app in Hcl as [_ Hc]. apply Forall_cons in Hc as [Hc _].
  destruct (clean_chars c Hc) as (x & l & Hr & Hx & _).
  exists x, (l ++ match cs' with
                  | [] => []
                  | _ => "/"%char :: rev (chars (join "/" cs'))
                  end)%list.
  rewrite rev_chars_join_snoc, Hr. done.
Qed.

Lemma tidy_ne (p : string) : tidy p -> p <> "".
Proof. intros (x & l & Hr & _) ->. discriminate. Qed.

Lemma drop_while_stop (f : ascii -> bool) (x : ascii) (l : list ascii) :
  f x = false -> drop_while f (x :: l) = x :: l.
Proof. simpl. by intros ->. Qed.

Lemma tidy_os_norm (p : string) : tidy p -> os_norm p = p.
Proof.
  intros (x & l & Hr & Hx). unfold os_norm.
  assert (existsb not_slash (list_ascii_of_string p) = true) as ->.
  { apply existsb_exists. exists x. split.
    - apply in_rev. fold (chars p). rewrite Hr. left. done.
    - unfold not_slash. by rewrite Hx. }
  fold (chars p). rewrite Hr, drop_while_stop by done. rewrite <- Hr.
  rewrite rev_involutive. apply string_of_list_ascii_of_string.
Qed.

Lemma tidy_isdir (fs : fsys) (p : string) :
  tidy p -> os_isdir fs p = bool_decide (p ∈ fs_dirs fs).
Proof.
  intros Ht. unfold os_isdir. rewrite tidy_os_norm by done.
  destruct Ht as (x & l & Hr & Hx).
  assert (String.eqb p "/" = false) as ->.
  { apply String.eqb_neq. intros ->. simpl in Hr. injection Hr as <- _.
    discriminate. }
  assert (String.eqb p "" = false) as -> by (apply String.eqb_neq; intros ->; done).
  done.
Qed.

Lemma take_drop_while_app (f : ascii -> bool) (l1 l2 : list ascii) :
  forallb f l1 = true ->
  match l2 with [] => True | x :: _ => f x = false end ->
  take_while f (l1 ++ l2) = l1 /\ drop_while f (l1 ++ l2) = l2.
Proof.
  intros H1 H2. induction l1 as [|y l1 IH]; simpl.
  - destruct l2 as [|x l2]; simpl; [done|]. by rewrite H2.
  - simpl in H1. apply andb_true_iff in H1 as [-> H1].
    destruct (IH H1) as [-> ->]. done.
Qed.

Lemma py_split_join_snoc (cs : list string) (c : string) :
  Forall (fun c => clean c = true) cs -> clean c = true ->
  py_split (join "/" (cs ++ [c])) = (join "/" cs, c).
Proof.
  intros Hcs Hc. unfold py_split.
  change (list_ascii_of_string (join "/" (cs ++ [c])))
    with (chars (join "/" (cs ++ [c]))).
  rewrite rev_chars_join_snoc.
  destruct (clean_chars c Hc) as (x & l & Hr & _ & Hall).
  destruct (take_drop_while_app not_slash (rev (chars c))
              (match cs with
               | [] => []
               | _ => "/"%char :: rev (chars (join "/" cs))
               end) Hall) as [-> ->]; [by destruct cs|].
  assert (Htail : string_of_list_ascii (rev (rev (chars c))) = c).
  { rewrite rev_involutive. apply string_of_list_ascii_of_string. }
  destruct cs as [|c0 cs0]; [by rewrite Htail|].
  destruct (tidy_join (c0 :: cs0) ltac:(done) Hcs) as (y & l' & Hy & Hys).
  rewrite Hy.
  assert (Hex : existsb not_slash ("/"%char :: y :: l') = true).
  { apply existsb_exists. exists y. split; [right; left; reflexivity|unfold not_slash; by rewrite Hys]. }
  assert (Hdw : drop_while is_slash ("/"%char :: y :: l') = y :: l').
  { change (drop_while is_slash ("/"%char :: y :: l'))
      with (drop_while is_slash (y :: l')).
    by apply drop_while_stop. }
  rewrite Hex, Hdw, <- Hy, Htail, rev_involutive.
  unfold chars. by rewrite string_of_list_ascii_of_string.
Qed.

Lemma bind_run {A B} (m : M A) (k : A -> M B) (s s' : state) (x : A) :
  m s = (inr x, s') -> bind m k s = k x s'.
Proof. unfold bind. by intros ->. Qed.

Lemma try_except_run {A} (m : M A) (h : exn -> M A) (s s' : state) (x : A) :
  m s = (inr x, s') -> try_except m h s = (inr x, s').
Proof. unfold try_except. by intros ->. Qed.

(** [os.mkdir] under [exist_ok=True] on a path that is a directory, or
    whose parent is. *)
Lemma mkdir_exist_ok_run (p : string) (s : state) :
  tidy p ->
  p ∈ fs_dirs (st_fs s) \/
    (is_file (st_fs s) p = false /\
     (String.eqb (dirname p) "" = true \/ os_isdir (st_fs s) (dirname p) = true)) ->
  try_except (os_mkdir p)
    (fun e => if is_oserror e then
                (isdir <- path_isdir p ;;
                 if negb true || negb isdir then raise e else ret tt)
              else raise e) s =
  (inr tt, mk_state (mk_fsys ({[ p ]} ∪ fs_dirs (st_fs s)) (fs_files (st_fs s)))
                    (st_stdout s)).
Proof.
  destruct s as [[D F] O]; simpl. intros Ht Hp.
  unfold try_except, os_mkdir. simpl.
  rewrite (proj2 (String.eqb_neq p "") (tidy_ne p Ht)).
  unfold os_exists. rewrite tidy_isdir by done. simpl.
  destruct (bool_decide (p ∈ D)) eqn:Hb; simpl.
  - unfold bind, path_isdir. simpl. rewrite tidy_isdir by done. simpl.
    rewrite Hb. simpl. apply bool_decide_eq_true in Hb.
    do 3 f_equal. set_solver.
  - apply bool_decide_eq_false in Hb.
    destruct Hp as [Hp | [Hf [Hq | Hq]]]; [done| |];
      rewrite Hf, andb_false_r; simpl; unfold parent_error;
      rewrite !tidy_os_norm by done.
    + by rewrite Hq.
    + by rewrite Hq, orb_true_r.
Qed.

Lemma elem_of_prefixes (x : string) (cs : list string) :
  x ∈ prefixes cs <-> exists k, x = join "/" (take k cs) /\ 1 <= k <= length cs.
Proof.
  unfold prefixes. rewrite list_elem_of_fmap. split.
  - intros (k & -> & Hk). apply elem_of_seq in Hk. exists k. split; [done|lia].
  - intros (k & -> & Hk). exists k. split; [done|]. apply elem_of_seq. lia.
Qed.

Lemma prefixes_snoc (cs : list string) (c : string) :
  prefixes (cs ++ [c]) = (prefixes cs ++ [join "/" (cs ++ [c])])%list.
Proof.
  unfold prefixes. rewrite length_app. simpl.
  rewrite Nat.add_1_r, seq_S, map_app. simpl. f_equal.
  - apply map_ext_in. intros k Hk. apply in_seq in Hk.
    rewrite take_app_le by lia. done.
  - rewrite take_ge by (rewrite length_app; simpl; lia). done.
Qed.

Lemma os_exists_tidy (fs : fsys) (p : string) :
  tidy p -> os_exists fs p = false ->
  (p ∉ fs_dirs fs) /\ is_file fs p = false.
Proof.
  intros Ht. unfold os_exists. rewrite tidy_isdir by done.
  rewrite (proj2 (String.eqb_neq p "") (tidy_ne p Ht)). simpl.
  intros [Hd Hf]%orb_false_iff. split; [|done].
  by apply bool_decide_eq_false in Hd.
Qed.

Lemma join_snoc_length (cs : list string) (c : string) :
  cs <> [] ->
  String.length (join "/" (cs ++ [c])) =
    (String.length (join "/" cs) + S (String.length c))%nat.
Proof. intros Hne. rewrite join_snoc, !string_length_app by done. done. Qed.

Lemma length_le_join (cs : list string) :
  length cs <= S (String.length (join "/" cs)).
Proof.
  induction cs as [|c cs' IH] using rev_ind; simpl; [lia|].
  rewrite length_app. simpl.
  destruct (decide (cs' = [])) as [->|Hne]; simpl; [lia|].
  rewrite join_snoc_length by done. lia.
Qed.

Lemma join_take_length (cs : list string) (k : nat) :
  String.length (join "/" (take k cs)) <= String.length (join "/" cs).
Proof.
  induction cs as [|c cs' IH] using rev_ind; [by rewrite take_nil|].
  destruct (decide (k <= length cs')) as [Hk|Hk].
  - rewrite take_app_le by done. etrans; [apply IH|].
    destruct (decide (cs' = [])) as [->|Hne]; simpl; [lia|].
    rewrite join_snoc_length by done. lia.
  - rewrite take_ge; [done|]. rewrite length_app. simpl. lia.
Qed.


#[local] Arguments py_split : simpl never.

(** [os.makedirs(c1/.../cn, exist_ok=True)] when the prefixes [c1/.../ck]
    are directories for [k <= j] and do not exist for [k > j]: it
    succeeds and adds exactly the directory prefixes. *)
Lemma makedirs_creates (cs : list string) :
  Forall (fun c => clean c = true) cs -> cs <> [] ->
  forall fuel s j,
  length cs <= fuel -> j <= length cs ->
  (forall k, 1 <= k <= j -> join "/" (take k cs) ∈ fs_dirs (st_fs s)) ->
  (forall k, j < k <= length cs ->
     os_exists (st_fs s) (join "/" (take k cs)) = false) ->
  makedirs_fuel fuel (join "/" cs) true s =
    (inr tt, mk_state (mk_fsys (fs_dirs (st_fs s) ∪ list_to_set (prefixes cs))
                               (fs_files (st_fs s)))
                      (st_stdout s)).
Proof.
  induction cs as [|c cs' IH] using rev_ind;
    intros Hcl Hne fuel s j Hfuel Hj Hdir Hnex; [done|]. clear Hne.
  apply Forall_app in Hcl as [Hcl' Hc]. apply Forall_cons in Hc as [Hc _].
  rewrite length_app in Hfuel, Hj, Hnex. simpl in Hfuel, Hj, Hnex.
  set (n := length cs') in *.
  assert (Hce : String.eqb c "" = false).
  { unfold clean in Hc. apply andb_true_iff in Hc as [Hc _].
    apply andb_true_iff in Hc as [Hc _]. by apply negb_true_iff in Hc. }
  assert (Hcd : String.eqb c "." = false).
  { unfold clean in Hc. apply andb_true_iff in Hc as [_ Hc].
    by apply negb_true_iff in Hc. }
  assert (HtP : tidy (join "/" (cs' ++ [c]))) by (apply tidy_join; [by destruct cs'|
    apply Forall_app; split; [done|by constructor]]).
  assert (HdP : dirname (join "/" (cs' ++ [c])) = join "/" cs').
  { unfold dirname. by rewrite py_split_join_snoc. }
  assert (Htake : forall k, k <= n -> take k (cs' ++ [c]) = take k cs').
  { intros k Hk. by apply take_app_le. }
  assert (HtakeP : take (n + 1) (cs' ++ [c]) = (cs' ++ [c])%list).
  { apply take_ge. rewrite length_app. simpl. lia. }
  destruct fuel as [|fuel']; [lia|].
  destruct s as [[D F] O]. simpl in Hdir, Hnex.
  rewrite prefixes_snoc. simpl st_fs; simpl fs_dirs; simpl fs_files; simpl st_stdout.
  unfold makedirs_fuel at 1; fold makedirs_fuel.
  rewrite py_split_join_snoc by done.
  rewrite Hce. cbv beta iota.
  set (P := join "/" (cs' ++ [c])) in *.
  assert (HmP : P ∈ D \/ is_file (mk_fsys D F) P = false).
  { destruct (decide (j = n + 1)) as [->|Hjn].
    - left. specialize (Hdir (n + 1) ltac:(lia)). by rewrite HtakeP in Hdir.
    - right. specialize (Hnex (n + 1) ltac:(lia)). rewrite HtakeP in Hnex.
      by apply os_exists_tidy in Hnex as [_ Hf]. }
  destruct (decide (cs' = [])) as [Hnil|Hne'].
  - (* a single component: its parent is the current directory *)
    assert (Hh : join "/" cs' = "") by (by rewrite Hnil).
    erewrite bind_run; cycle 1.
    { erewrite bind_run; [|reflexivity]. cbv beta. by rewrite Hh. }
    cbv beta iota. rewrite mkdir_exist_ok_run; simpl; [| done |].
    + rewrite Hnil. simpl. do 3 f_equal. set_solver.
    + destruct HmP as [HmP|HmP]; [by left|right]. split; [done|].
      left. by rewrite HdP, Hh.
  - assert (HtH : tidy (join "/" cs')) by (by apply tidy_join).
    assert (Hn1 : 1 <= n) by (destruct cs'; simpl in *; [done|lia]).
    assert (HtakeH : take n cs' = cs') by (by apply take_ge).
    assert (HhD : forall D', join "/" cs' ∈ D' -> os_isdir (mk_fsys D' F) (join "/" cs') = true).
    { intros D' HD'. rewrite tidy_isdir by done. by apply bool_decide_eq_true. }
    rewrite (proj2 (String.eqb_neq (join "/" cs') "") (tidy_ne _ HtH)).
    destruct (decide (n <= j)) as [Hnj|Hnj].
    + (* the parent exists *)
      assert (Hpre : forall x, x ∈ prefixes cs' -> x ∈ D).
      { intros x (k & -> & Hk)%elem_of_prefixes. rewrite <- Htake by lia.
        apply Hdir. lia. }
      assert (HhIn : join "/" cs' ∈ D).
      { apply Hpre, elem_of_prefixes. exists n. rewrite HtakeH. split; [done|lia]. }
      erewrite bind_run; cycle 1.
      { erewrite bind_run; [|reflexivity]. cbv beta. cbn [st_fs]. rewrite Hce.
        unfold os_exists. rewrite (HhD D HhIn). reflexivity. }
      cbv beta iota. rewrite mkdir_exist_ok_run; simpl; [| done |].
      * do 3 f_equal. rewrite list_to_set_app_L. simpl. set_solver.
      * destruct HmP as [HmP|HmP]; [by left|right]. split; [done|].
        right. rewrite HdP. by apply HhD.
    + (* the parent is missing: the recursive call creates it *)
      assert (Hex : os_exists (mk_fsys D F) (join "/" cs') = false).
      { specialize (Hnex n ltac:(lia)). by rewrite Htake, HtakeH in Hnex by lia. }
      assert (Hrec : makedirs_fuel fuel' (join "/" cs') true
                       (mk_state (mk_fsys D F) O) =
                     (inr tt, mk_state (mk_fsys (D ∪ list_to_set (prefixes cs')) F) O)).
      { apply (IH Hcl' Hne' fuel' (mk_state (mk_fsys D F) O) j); simpl; [lia|lia| |].
        - intros k Hk. rewrite <- Htake by lia. apply Hdir. lia.
        - intros k Hk. rewrite <- Htake by lia. apply Hnex. lia. }
      erewrite bind_run; cycle 1.
      { erewrite bind_run; [|reflexivity]. cbv beta. cbn [st_fs]. rewrite Hce.
        rewrite Hex. simpl.
        erewrite bind_run; [|apply try_except_run, Hrec]. reflexivity. }
      cbv beta iota. unfold ret at 1. rewrite Hcd.
      rewrite mkdir_exist_ok_run; simpl; [| done |].
      * do 3 f_equal. rewrite list_to_set_app_L. simpl. set_solver.
      * right. split.
        -- destruct HmP as [HmP|HmP]; [|done].
           exfalso. specialize (Hnex (n + 1) ltac:(lia)). rewrite HtakeP in Hnex.
           apply os_exists_tidy in Hnex as [Hd _]; done.
        -- right. rewrite HdP. apply HhD. apply elem_of_union_r.
           apply elem_of_list_to_set, elem_of_prefixes. exists n.
           rewrite HtakeH. split; [done|lia].
Qed.

Lemma tidy_trailing_slash (p : string) : tidy p -> trailing_slash p = false.
Proof.
  intros (x & l & Hr & Hx). unfold trailing_slash.
  change (list_ascii_of_string p) with (chars p). by rewrite Hr.
Qed.

(** [open(p, "w")] and the write, on a path that is not a directory and
    whose parent exists: the file holds exactly the text. *)
Lemma write_text_run (p text : string) (s : state) :
  tidy p -> p ∉ fs_dirs (st_fs s) ->
  (String.eqb (dirname p) "" = true \/ os_isdir (st_fs s) (dirname p) = true) ->
  write_text p text s =
    (inr tt, mk_state (mk_fsys (fs_dirs (st_fs s))
                               (<[ p := text ]> (fs_files (st_fs s))))
                      (st_stdout s)).
Proof.
  destruct s as [[D F] O]; cbn [st_fs fs_dirs fs_files st_stdout].
  intros Ht Hd Hpar.
  unfold write_text, bind at 1, open_w. cbn [st_fs fs_dirs fs_files st_stdout].
  rewrite (proj2 (String.eqb_neq p "") (tidy_ne p Ht)).
  rewrite tidy_isdir by done. cbn [fs_dirs]. rewrite bool_decide_false by done.
  unfold parent_error. rewrite tidy_os_norm by done.
  assert (Hpe : (String.eqb (dirname p) "" || os_isdir (mk_fsys D F) (dirname p))
                = true) by (destruct Hpar as [-> | ->]; [done|apply orb_true_r]).
  rewrite Hpe, tidy_trailing_slash by done.
  unfold file_write. cbn [st_fs fs_dirs fs_files st_stdout].
  rewrite lookup_insert_eq, insert_insert_eq. reflexivity.
Qed.

Lemma component_clean (c : string) : component c = true -> clean c = true.
Proof. unfold component. by intros (((? & _)%andb_true_iff & _)%andb_true_iff & _)%andb_true_iff. Qed.

Lemma components_clean (cs : list string) (f : string) :
  Forall (fun c => component c = true) (cs ++ [f]) ->
  Forall (fun c => clean c = true) cs /\ clean f = true.
Proof.
  intros H. apply Forall_app in H as [Hcs Hf]. apply Forall_cons in Hf as [Hf _].
  split; [|by apply component_clean].
  eapply Forall_impl; [exact Hcs|]. intros c. apply component_clean.
Qed.

(* ------------------------------------------------------------------ *)
(** ** Claims *)

(** C2: for an eligible callable on which [inspect.signature] raises
    [ValueError], extracting the signature does not raise: it yields
    [(...)], and the stub contains the line [def <name>(...):]. *)
Theorem signature_fallback_placeholder (package_name : string)
    (pkg : namespace) (name : string) (attr : pyobj) (s : state) :
  pkg !! name = Some attr ->
  is_magic name = false ->
  (isfunction attr || isbuiltin attr) = true ->
  obj_signature attr = None ->
  signature_text attr s = (inr "(...)", s) /\
  exists lines,
    build_lines package_name pkg s = (inr lines, s) /\
    ("def " ++ name ++ "(...):") ∈ lines.
Proof.
  intros Hv Hm He Hsig. split.
  - rewrite signature_text_run. unfold record_of. by rewrite Hsig.
  - rewrite eligible_invocable in He.
    destruct (block_in_render package_name _ _ (record_in_records _ _ _ Hv Hm He))
      as (pre & post & Hr).
    eexists. split; [apply build_lines_run|]. rewrite Hr.
    apply elem_of_app. right. apply elem_of_app. left.
    unfold record_block, record_of. rewrite Hsig. simpl. left.
Qed.

Lemma signature_fallback_placeholder_witness :
  kand_sample !! "ema" = Some ema_obj /\ is_magic "ema" = false /\
  (isfunction ema_obj || isbuiltin ema_obj) = true /\
  obj_signature ema_obj = None /\
  (signature_text ema_obj state_sample = (inr "(...)", state_sample) /\
   exists lines,
     build_lines "kand" kand_sample state_sample = (inr lines, state_sample) /\
     ("def " ++ "ema" ++ "(...):") ∈ lines).
Proof.
  split; [vm_compute; reflexivity|].
  split; [reflexivity|]. split; [reflexivity|]. split; [reflexivity|].
  apply (signature_fallback_placeholder "kand" kand_sample "ema" ema_obj
           state_sample); [vm_compute; reflexivity|reflexivity..].
Defined.

(** C3: for an eligible callable without a docstring, the stub contains
    the declaration followed by the one-line docstring
    [No docstring available.] between the delimiters, the body [...]
    and a blank line. *)
Theorem missing_doc_fallback_line (package_name : string)
    (pkg : namespace) (name : string) (attr : pyobj) (s : state) :
  pkg !! name = Some attr ->
  is_magic name = false ->
  (isfunction attr || isbuiltin attr) = true ->
  (obj_doc attr = None \/ obj_doc attr = Some "") ->
  rec_doc_lines (record_of name attr) = [] /\
  exists pre post,
    build_lines package_name pkg s =
      (inr (pre ++
            [("def " ++ name ++ rec_signature_text (record_of name attr) ++ ":")%string;
             ("    " ++ tq ++ "No docstring available." ++ tq)%string;
             "    ..."; ""] ++ post)%list, s).
Proof.
  intros Hv Hm He Hdoc.
  assert (Hnil : rec_doc_lines (record_of name attr) = []).
  { unfold record_of, getdoc. simpl.
    by destruct Hdoc as [-> | ->]. }
  split; [done|].
  rewrite eligible_invocable in He.
  destruct (block_in_render package_name _ _ (record_in_records _ _ _ Hv Hm He))
    as (pre & post & Hr).
  exists pre, post. rewrite build_lines_run, Hr. do 2 f_equal.
  unfold record_block. rewrite Hnil. reflexivity.
Qed.

Lemma missing_doc_fallback_line_witness :
  kand_sample !! "_helper" = Some helper_obj /\ is_magic "_helper" = false /\
  (isfunction helper_obj || isbuiltin helper_obj) = true /\
  (obj_doc helper_obj = None \/ obj_doc helper_obj = Some "") /\
  (rec_doc_lines (record_of "_helper" helper_obj) = [] /\
   exists pre post,
     build_lines "kand" kand_sample state_sample =
       (inr (pre ++
             [("def " ++ "_helper" ++
                 rec_signature_text (record_of "_helper" helper_obj) ++ ":")%string;
              ("    " ++ tq ++ "No docstring available." ++ tq)%string;
              "    ..."; ""] ++ post)%list, state_sample)).
Proof.
  split; [vm_compute; reflexivity|].
  split; [reflexivity|]. split; [reflexivity|]. split; [right; reflexivity|].
  apply (missing_doc_fallback_line "kand" kand_sample "_helper" helper_obj
           state_sample); [vm_compute; reflexivity|reflexivity|reflexivity|].
  right. reflexivity.
Defined.

(** C4: rendering is a function of the module identifier and of the
    sequence of CallableRecords alone: two packages with the same records
    give one list of lines, whatever the state (files, directories,
    output of an earlier run) and the output path, and every run, the
    first or a re-run, makes the directories and writes the text
    [join nl lines] built from these lines. *)
Theorem output_depends_only_on_records
    (sys1 sys2 : gmap string namespace) (package_name : string)
    (pkg1 pkg2 : namespace) :
  sys1 !! package_name = Some pkg1 ->
  sys2 !! package_name = Some pkg2 ->
  records_of pkg1 = records_of pkg2 ->
  exists lines, forall (output_path : string) (s : state),
    build_lines package_name pkg1 s = (inr lines, s) /\
    build_lines package_name pkg2 s = (inr lines, s) /\
    generate_stub_file sys1 package_name output_path s =
      (makedirs (dirname output_path) true ;;;
       write_text output_path (join nl lines) ;;;
       print ("Generated: " ++ output_path)) s /\
    generate_stub_file sys2 package_name output_path s =
      (makedirs (dirname output_path) true ;;;
       write_text output_path (join nl lines) ;;;
       print ("Generated: " ++ output_path)) s.
Proof.
  intros H1 H2 Hrec.
  exists (render_spec package_name (records_of pkg1)). intros output_path s.
  split; [apply build_lines_run|]. split; [rewrite Hrec; apply build_lines_run|].
  split; [by apply generate_imported|].
  rewrite Hrec. by apply generate_imported.
Qed.

Lemma output_depends_only_on_records_witness :
  sys_sample !! "kand" = Some kand_sample /\
  sys_sample_v2 !! "kand" = Some kand_sample_v2 /\
  records_of kand_sample = records_of kand_sample_v2 /\
  exists lines, forall (output_path : string) (s : state),
    build_lines "kand" kand_sample s = (inr lines, s) /\
    build_lines "kand" kand_sample_v2 s = (inr lines, s) /\
    generate_stub_file sys_sample "kand" output_path s =
      (makedirs (dirname output_path) true ;;;
       write_text output_path (join nl lines) ;;;
       print ("Generated: " ++ output_path)) s /\
    generate_stub_file sys_sample_v2 "kand" output_path s =
      (makedirs (dirname output_path) true ;;;
       write_text output_path (join nl lines) ;;;
       print ("Generated: " ++ output_path)) s.
Proof.
  split; [vm_compute; reflexivity|]. split; [vm_compute; reflexivity|].
  split; [vm_compute; reflexivity|].
  apply (output_depends_only_on_records sys_sample sys_sample_v2 "kand"
           kand_sample kand_sample_v2); vm_compute; reflexivity.
Defined.

(** C5: a top-level name is kept as public exactly when it is bound in
    the package and does not both start and end with two underscores. *)
Theorem public_names_filter_magic (pkg : namespace) (n : string) :
  n ∈ public_names pkg <->
  is_Some (pkg !! n) /\
  ~ (startswith n "__" = true /\ endswith n "__" = true).
Proof.
  rewrite elem_of_public_names. unfold is_magic.
  destruct (startswith n "__"), (endswith n "__"); simpl; intuition congruence.
Qed.

(** C6: when the package cannot be imported the run raises
    [ModuleNotFoundError] and leaves the state (files, directories,
    standard output) unchanged. *)
Theorem import_failure_leaves_state (sys_modules : gmap string namespace)
    (package_name output_path : string) (s : state) :
  sys_modules !! package_name = None ->
  generate_stub_file sys_modules package_name output_path s =
    (inl ModuleNotFoundError, s).
Proof.
  intros H. unfold generate_stub_file, import_module, bind. by rewrite H.
Qed.

Lemma import_failure_leaves_state_witness :
  sys_sample !! "numpy" = None /\
  generate_stub_file sys_sample "numpy" "a/numpy.pyi" state_sample =
    (inl ModuleNotFoundError, state_sample).
Proof.
  split; [vm_compute; reflexivity|].
  apply (import_failure_leaves_state sys_sample "numpy" "a/numpy.pyi"
           state_sample); vm_compute; reflexivity.
Defined.

(** C7: the lines of the stub are the fixed header, whose first line
    names the package, followed by one block per record in order:
    [def <name><signature_text>:], the docstring block (delimiters around
    the re-indented doc lines, or the one-line fallback), [...] and a
    blank line. *)
Theorem stub_layout_follows_spec (package_name : string) (pkg : namespace)
    (s : state) :
  build_lines package_name pkg s =
    (inr (render_spec package_name (records_of pkg)), s) /\
  head (render_spec package_name (records_of pkg)) =
    Some ("# Auto-generated stub file for " ++ package_name).
Proof. split; [apply build_lines_run | reflexivity]. Qed.

(** C8: for an output path [c1/.../cn/f] whose directory prefixes
    [c1/.../ck] are directories for [k <= j] and do not exist for
    [k > j] (so [c1/.../cn] is missing when [j < n]), and which is not
    itself a directory, the run succeeds: it adds the missing directories,
    the file at the path holds the rendered text whatever it held before,
    and the confirmation line is printed.  The components are ordinary
    names (not [.] or [..], no NUL, within [NAME_MAX]) and the path has
    at most 1000 code points, within [PATH_MAX] and far from Python's
    recursion limit in [os.makedirs]. *)
Theorem nested_output_path_created (sys_modules : gmap string namespace)
    (package_name f : string) (cs : list string) (pkg : namespace)
    (j : nat) (s : state) :
  sys_modules !! package_name = Some pkg ->
  cs <> [] -> Forall (fun c => component c = true) (cs ++ [f]) ->
  (String.length (join "/" (cs ++ [f])) <= 1000)%nat ->
  j <= length cs ->
  (forall k, 1 <= k <= j -> join "/" (take k cs) ∈ fs_dirs (st_fs s)) ->
  (forall k, j < k <= length cs ->
     os_exists (st_fs s) (join "/" (take k cs)) = false) ->
  join "/" (cs ++ [f]) ∉ fs_dirs (st_fs s) ->
  generate_stub_file sys_modules package_name (join "/" (cs ++ [f])) s =
    (inr tt,
     mk_state
       (mk_fsys (fs_dirs (st_fs s) ∪ list_to_set (prefixes cs))
          (<[ join "/" (cs ++ [f]) :=
                join nl (render_spec package_name (records_of pkg)) ]>
             (fs_files (st_fs s))))
       (st_stdout s ++ [("Generated: " ++ join "/" (cs ++ [f]))%string])%list).
Proof.
  intros Hpkg Hne Hcomp _ Hj Hdir Hnex Hout.
  destruct (components_clean cs f Hcomp) as [Hcl Hf].
  rewrite (generate_imported _ _ _ _ _ Hpkg).
  unfold dirname. rewrite py_split_join_snoc by done. simpl fst.
  unfold makedirs.
  erewrite bind_run;
    [|apply (makedirs_creates cs Hcl Hne _ s j); [apply length_le_join|done..]].
  assert (HdO : dirname (join "/" (cs ++ [f])) = join "/" cs).
  { unfold dirname. by rewrite py_split_join_snoc. }
  set (out := join "/" (cs ++ [f])) in *.
  assert (Ht : tidy out) by (apply tidy_join; [by destruct cs|
    apply Forall_app; split; [done|by constructor]]).
  assert (HtH : tidy (join "/" cs)) by (by apply tidy_join).
  assert (HoutP : out ∉ prefixes cs).
  { intros (k & Hk & _)%elem_of_prefixes.
    pose proof (join_take_length cs k) as Hl.
    assert (Hlen : String.length out =
                   (String.length (join "/" cs) + S (String.length f))%nat)
      by (apply join_snoc_length; done).
    rewrite <- Hk in Hl. lia. }
  assert (HhP : join "/" cs ∈ prefixes cs).
  { apply elem_of_prefixes. exists (length cs).
    rewrite take_ge by done. split; [done|]. destruct cs; simpl; [done|lia]. }
  erewrite bind_run; cycle 1.
  { apply write_text_run; [done|cbn [st_fs fs_dirs]; set_solver|].
    right. rewrite HdO, tidy_isdir by done. cbn [st_fs fs_dirs].
    apply bool_decide_true. set_solver. }
  reflexivity.
Qed.

Lemma nested_output_path_created_witness :
  sys_sample !! "kand" = Some kand_sample /\
  generate_stub_file sys_sample "kand" (join "/" (["a"; "b"; "c"] ++ ["out.stub"]))
    state_sample =
    (inr tt,
     mk_state
       (mk_fsys (fs_dirs (st_fs state_sample) ∪
                   list_to_set (prefixes ["a"; "b"; "c"]))
          (<[ join "/" (["a"; "b"; "c"] ++ ["out.stub"]) :=
                join nl (render_spec "kand" (records_of kand_sample)) ]>
             (fs_files (st_fs state_sample))))
       (st_stdout state_sample ++
          [("Generated: " ++ join "/" (["a"; "b"; "c"] ++ ["out.stub"]))%string])%list).
Proof.
  split; [vm_compute; reflexivity|].
  apply (nested_output_path_created sys_sample "kand" "out.stub" ["a"; "b"; "c"]
           kand_sample 1 state_sample).
  - vm_compute. reflexivity.
  - discriminate.
  - repeat constructor.
  - vm_compute. lia.
  - simpl. lia.
  - intros k Hk. assert (k = 1) as -> by lia.
    unfold state_sample. simpl. apply elem_of_singleton. reflexivity.
  - intros k Hk. simpl in Hk.
    destruct k as [|[|[|[|k]]]]; [lia|lia|vm_compute; reflexivity|
                                 vm_compute; reflexivity|lia].
  - unfold state_sample. simpl. rewrite elem_of_singleton.
    intros H. vm_compute in H. discriminate.
Defined.

(** C9: with fewer than two arguments the script prints the usage and an
    example to standard output and exits with status 1, touching no
    file. *)
Theorem short_argv_usage_exit (sys_modules : gmap string namespace)
    (argv : list string) (s : state) :
  (length argv < 3)%nat ->
  main sys_modules argv s =
    (inl (SystemExit 1),
     mk_state (st_fs s) (st_stdout s ++ [usage_line; example_line])%list).
Proof.
  intros H. unfold main. apply Nat.ltb_lt in H. rewrite H.
  unfold bind, print, raise. simpl. by rewrite <- app_assoc.
Qed.

Lemma short_argv_usage_exit_witness :
  (length ["gen_stub.py"; "kand"] < 3)%nat /\
  main sys_sample ["gen_stub.py"; "kand"] state_sample =
    (inl (SystemExit 1),
     mk_state (st_fs state_sample)
       (st_stdout state_sample ++ [usage_line; example_line])%list).
Proof.
  split; [simpl; lia|].
  apply (short_argv_usage_exit sys_sample ["gen_stub.py"; "kand"] state_sample).
  simpl. lia.
Defined.

(** C1: for a package whose top-level names contain no parenthesis (as
    Python identifiers do), the stub has, for every such name [n],
    exactly one declaration line [def <n>(...] when [n] is bound to a
    function or builtin and is not magic, and none otherwise (classes,
    modules, data values, magic names, unbound names); so no name is
    declared twice. *)
Theorem one_declaration_per_eligible_symbol (package_name : string)
    (pkg : namespace) (s : state) :
  map_Forall (fun k _ => has_paren k = false) pkg ->
  exists lines,
    build_lines package_name pkg s = (inr lines, s) /\
    forall n, has_paren n = false ->
      length (filter (fun l => is_decl_of n l = true) lines) =
        match pkg !! n with
        | Some v => if negb (is_magic n) && invocable v then 1 else 0
        | None => 0
        end.
Proof.
  intros Hkeys. eexists. split; [apply build_lines_run|].
  intros n Hn. unfold render_spec.
  rewrite filter_app, length_app, count_decl_header. simpl.
  rewrite count_decl_records by
    (done || (apply Forall_forall; intros r Hr;
      unfold records_of, records_of_names in Hr;
      apply list_elem_of_omap in Hr as (x & Hx & Hf);
      destruct (pkg !! x) as [v|] eqn:Hv; [|done];
      destruct (invocable v); [|done]; injection Hf as <-;
      split; [apply (Hkeys x v Hv) | apply signature_text_paren])).
  unfold records_of. rewrite count_records_named by apply NoDup_public_names.
  destruct (bool_decide (n ∈ public_names pkg)) eqn:Hb.
  - apply bool_decide_eq_true, elem_of_public_names in Hb as [[v Hv] Hm].
    by rewrite Hv, Hm.
  - apply bool_decide_eq_false in Hb. rewrite elem_of_public_names in Hb.
    destruct (pkg !! n) as [v|] eqn:Hv; [|done].
    destruct (is_magic n) eqn:Hm; [done|].
    exfalso. apply Hb. split; [by eexists|done].
Qed.

Lemma one_declaration_per_eligible_symbol_witness :
  map_Forall (fun k _ => has_paren k = false) kand_sample /\
  exists lines,
    build_lines "kand" kand_sample state_sample = (inr lines, state_sample) /\
    forall n, has_paren n = false ->
      length (filter (fun l => is_decl_of n l = true) lines) =
        match kand_sample !! n with
        | Some v => if negb (is_magic n) && invocable v then 1 else 0
        | None => 0
        end.
Proof.
  assert (H : map_Forall (fun k (_ : pyobj) => has_paren k = false) kand_sample).
  { unfold kand_sample.
    repeat (apply map_Forall_insert_2; [reflexivity|]). apply map_Forall_empty. }
  split; [exact H|].
  apply (one_declaration_per_eligible_symbol "kand" kand_sample state_sample H).
Defined.

(** C10: when the output path contains no slash, [os.makedirs] is called
    on the empty [dirname] and raises [FileNotFoundError]; the run stops
    there with the state unchanged, so no file is written. *)
Theorem bare_filename_makedirs_fails (sys_modules : gmap string namespace)
    (package_name output_path : string) (pkg : namespace) (s : state) :
  sys_modules !! package_name = Some pkg ->
  existsb is_slash (list_ascii_of_string output_path) = false ->
  generate_stub_file sys_modules package_name output_path s =
    (inl FileNotFoundError, s).
Proof.
  intros Hpkg Hp. rewrite (generate_imported _ _ _ _ _ Hpkg).
  rewrite dirname_no_slash by done. reflexivity.
Qed.

Lemma bare_filename_makedirs_fails_witness :
  sys_sample !! "kand" = Some kand_sample /\
  existsb is_slash (list_ascii_of_string "out.pyi") = false /\
  generate_stub_file sys_sample "kand" "out.pyi" state_sample =
    (inl FileNotFoundError, state_sample).
Proof.
  split; [vm_compute; reflexivity|]. split; [reflexivity|].
  apply (bare_filename_makedirs_fails sys_sample "kand" "out.pyi" kand_sample
           state_sample); [vm_compute|]; reflexivity.
Defined.

Example splitlines_ex :
  splitlines ("a" ++ nl ++ nl ++ "b" ++ nl) = ["a"; ""; "b"].
Proof. reflexivity. Qed.
Example dir_ex :
  dir (<["zeta":=mk_pyobj KData None None]> (<["__doc__":=mk_pyobj KData None None]>
       (<["alpha":=mk_pyobj KFunction None None]> ∅))) = ["__doc__"; "alpha"; "zeta"].
Proof. vm_compute. reflexivity. Qed.
Example magic_ex : map is_magic ["__"; "___"; "__init__"; "_x"; "__x"; "x__"] = [true; true; true; false; false; false].
Proof. reflexivity. Qed.

Example split_ex :
  map py_split ["a/b/c/out.stub"; "out.pyi"; "/x"; "a//b"; "a/b/"; ""]
  = [("a/b/c", "out.stub"); ("", "out.pyi"); ("/", "x"); ("a", "b");
     ("a/b", ""); ("", "")].
Proof. reflexivity. Qed.

(* ------------------------------------------------------------------ *)
(** ** Further properties of the script and of the library calls it makes *)

(** *** [str.splitlines] and [str.join] (lines 53 and 76) *)

Lemma string_app_nil_r (a : string) : (a ++ "")%string = a.
Proof. induction a as [|ch a IH]; simpl; [done|]. by rewrite IH. Qed.

Lemma no_boundary_cons (c : ascii) (x : string) :
  no_boundary (String c x) = negb (is_line_boundary c) && no_boundary x.
Proof. done. Qed.

Lemma no_boundary_snoc (cur : string) (c : ascii) :
  no_boundary (cur ++ String c EmptyString) =
    no_boundary cur && negb (is_line_boundary c).
Proof.
  unfold no_boundary. fold (chars (cur ++ String c EmptyString)).
  rewrite chars_app, forallb_app. simpl. by rewrite andb_true_r.
Qed.

Lemma boundary_not_cr (c : ascii) :
  is_line_boundary c = false -> (nat_of_ascii c =? 13)%nat = false.
Proof.
  unfold is_line_boundary. intros H.
  repeat (apply orb_false_iff in H as [H ?]). done.
Qed.

Lemma splitlines_from_plain (x rest cur : string) :
  no_boundary x = true ->
  splitlines_from (x ++ rest) cur = splitlines_from rest (cur ++ x).
Proof.
  revert cur. induction x as [|c x IH]; intros cur Hx.
  - simpl. by rewrite string_app_nil_r.
  - rewrite no_boundary_cons in Hx. apply andb_true_iff in Hx as [Hc Hx].
    apply negb_true_iff in Hc.
    change ((String c x ++ rest)%string) with (String c (x ++ rest)).
    cbn [splitlines_from]. rewrite boundary_not_cr, Hc by done.
    rewrite IH by done. by rewrite <- string_app_assoc.
Qed.

Lemma splitlines_from_nl (rest cur : string) :
  splitlines_from (nl ++ rest) cur = cur :: splitlines_from rest "".
Proof. done. Qed.

Lemma join_cons_cons (sep x y : string) (ys : list string) :
  join sep (x :: y :: ys) = (x ++ sep ++ join sep (y :: ys))%string.
Proof. done. Qed.

(** Joining lines with newlines and splitting the text again gives the
    lines back, when no line holds a line boundary and the last line is
    not empty. *)
Theorem splitlines_join_nl (ls : list string) :
  Forall (fun l => no_boundary l = true) ls -> last ls <> Some "" ->
  splitlines (join nl ls) = ls.
Proof.
  unfold splitlines. induction ls as [|x [|y ys] IH]; intros Hb Hl; [done| |].
  - apply Forall_cons in Hb as [Hx _]. simpl in Hl.
    change (join nl [x]) with x.
    rewrite <- (string_app_nil_r x) at 1. rewrite splitlines_from_plain by done.
    simpl. destruct (String.eqb_spec x ""); [congruence|done].
  - apply Forall_cons in Hb as [Hx Hb].
    rewrite join_cons_cons. rewrite (splitlines_from_plain x) by exact Hx.
    rewrite splitlines_from_nl.
    simpl. f_equal. apply IH; [done|exact Hl].
Qed.

Lemma splitlines_join_nl_witness :
  Forall (fun l => no_boundary l = true)
    ["Simple moving average."; ""; "Args: data, period."] /\
  last ["Simple moving average."; ""; "Args: data, period."] <> Some "" /\
  splitlines (join nl ["Simple moving average."; ""; "Args: data, period."]) =
    ["Simple moving average."; ""; "Args: data, period."].
Proof.
  assert (H1 : Forall (fun l => no_boundary l = true)
                 ["Simple moving average."; ""; "Args: data, period."])
    by (repeat constructor).
  assert (H2 : last ["Simple moving average."; ""; "Args: data, period."] <> Some "")
    by discriminate.
  split; [exact H1|split; [exact H2|]].
  apply (splitlines_join_nl _ H1 H2).
Defined.

Lemma splitlines_from_no_boundary (s : string) :
  (forall cur, no_boundary cur = true ->
     Forall (fun l => no_boundary l = true) (splitlines_from s cur)) /\
  (forall cur, no_boundary cur = true ->
     match s with
     | String _ r => Forall (fun l => no_boundary l = true) (splitlines_from r cur)
     | EmptyString => True
     end).
Proof.
  induction s as [|c r [IH1 IH2]]; split; intros cur Hcur; simpl; [| done | |].
  - destruct (String.eqb cur ""); repeat constructor; done.
  - destruct (nat_of_ascii c =? 13)%nat.
    + destruct r as [|d r'].
      * by repeat constructor.
      * destruct (nat_of_ascii d =? 10)%nat; constructor; [done| |done|].
        -- by apply IH2.
        -- by apply IH1.
    + destruct (is_line_boundary c) eqn:Hc.
      * constructor; [done|]. by apply IH1.
      * apply IH1. rewrite no_boundary_snoc, Hcur, Hc. done.
  - by apply IH1.
Qed.

(** No line of [s.splitlines()] holds a line boundary: each documentation
    line is written as exactly one line of the stub. *)
Theorem splitlines_lines_no_boundary (s : string) :
  Forall (fun l => no_boundary l = true) (splitlines s).
Proof. apply (proj1 (splitlines_from_no_boundary s)). done. Qed.

(** *** Declaration order *)

Lemma str_leb_trans (a b c : string) :
  String.leb a b = true -> String.leb b c = true -> String.leb a c = true.
Proof.
  revert b c. induction a as [|x a IH]; intros [|y b] [|z c]; try done.
  unfold String.leb. cbn [String.compare]. unfold Ascii.compare.
  destruct (N.compare_spec (N_of_ascii x) (N_of_ascii y)) as [Hxy|Hxy|Hxy];
  destruct (N.compare_spec (N_of_ascii y) (N_of_ascii z)) as [Hyz|Hyz|Hyz];
  try done;
  destruct (N.compare_spec (N_of_ascii x) (N_of_ascii z)) as [Hxz|Hxz|Hxz];
  try done; try lia.
  apply IH.
Qed.

#[local] Instance str_le_trans : Transitive str_le.
Proof. intros a b c. apply str_leb_trans. Qed.

#[local] Instance str_le_total : Total str_le.
Proof. intros a b. apply String.leb_total. Qed.

Lemma StronglySorted_sublist {A} (R : relation A) (l1 l2 : list A) :
  l1 `sublist_of` l2 -> StronglySorted R l2 -> StronglySorted R l1.
Proof.
  induction 1 as [|x l1 l2 Hs IH|x l1 l2 Hs IH]; intros H; [done| |].
  - apply StronglySorted_inv in H as [H1 H2]. constructor; [by apply IH|].
    rewrite Forall_forall in H2 |- *. intros y Hy. apply H2.
    by eapply elem_of_sublist.
  - apply StronglySorted_inv in H as [H1 _]. by apply IH.
Qed.

Lemma StronglySorted_NoDup_strict {A} (R : relation A) (l : list A) :
  StronglySorted R l -> NoDup l ->
  StronglySorted (fun a b => R a b /\ a <> b) l.
Proof.
  induction 1 as [|x l Hs IH Hf]; intros Hnd; constructor.
  - apply IH. by apply NoDup_cons in Hnd as [_ ?].
  - apply NoDup_cons in Hnd as [Hx _]. apply Forall_forall. intros y Hy.
    split; [by eapply Forall_forall|]. intros ->. done.
Qed.

Lemma StronglySorted_weaken {A} (R R' : relation A) (l : list A) :
  (forall a b, R a b -> R' a b) -> StronglySorted R l -> StronglySorted R' l.
Proof.
  intros HR. induction 1 as [|x l _ IH Hf]; constructor; [done|].
  eapply Forall_impl; [exact Hf|]. intros y; apply HR.
Qed.

Lemma record_names_sublist (pkg : namespace) (names : list string) :
  map rec_name (records_of_names pkg names) `sublist_of` names.
Proof.
  induction names as [|x names IH]; [constructor|].
  rewrite records_of_names_cons.
  destruct (pkg !! x) as [v|]; [destruct (invocable v)|]; simpl;
    by constructor.
Qed.

Lemma leb_neq_ltb (a b : string) :
  String.leb a b = true -> a <> b -> String.ltb a b = true.
Proof.
  unfold String.leb, String.ltb. intros H Hne.
  destruct (String.compare a b) eqn:Hc; try done.
  by apply String.compare_eq_iff in Hc.
Qed.

(** The stub declares the callables in strictly ascending order of their
    names, the order of [dir]. *)
Theorem declarations_strictly_ascending (package_name : string)
    (pkg : namespace) (s : state) :
  exists lines,
    build_lines package_name pkg s = (inr lines, s) /\
    lines = render_spec package_name (records_of pkg) /\
    StronglySorted (fun a b => String.ltb a b = true)
      (map rec_name (records_of pkg)).
Proof.
  exists (render_spec package_name (records_of pkg)).
  split; [apply build_lines_run|split; [done|]].
  assert (Hd : StronglySorted str_le (public_names pkg)).
  { apply (StronglySorted_sublist _ _ (dir pkg)).
    - unfold public_names. apply sublist_filter.
    - unfold dir. apply StronglySorted_merge_sort;
        [exact str_le_trans|exact str_le_total]. }
  apply StronglySorted_NoDup_strict in Hd; [|apply NoDup_public_names].
  apply (StronglySorted_sublist _ (map rec_name (records_of pkg))) in Hd;
    [|apply record_names_sublist].
  eapply StronglySorted_weaken; [|exact Hd]. intros a b [Hab Hne].
  by apply leb_neq_ltb.
Qed.

(** *** [os.makedirs] and the whole run (lines 72-77) *)

Lemma only_adds_dirs_refl (s : state) : only_adds_dirs s s.
Proof. done. Qed.

Lemma only_adds_dirs_trans (s1 s2 s3 : state) :
  only_adds_dirs s1 s2 -> only_adds_dirs s2 s3 -> only_adds_dirs s1 s3.
Proof.
  intros (H1 & H2 & H3) (H4 & H5 & H6). split; [congruence|split; [congruence|]].
  set_solver.
Qed.

Lemma keeps_ret {A} (x : A) : keeps (ret x).
Proof. intros s. apply only_adds_dirs_refl. Qed.

Lemma keeps_raise {A} (e : exn) : keeps (A:=A) (raise e).
Proof. intros s. apply only_adds_dirs_refl. Qed.

Lemma keeps_bind {A B} (m : M A) (k : A -> M B) :
  keeps m -> (forall x, keeps (k x)) -> keeps (bind m k).
Proof.
  intros Hm Hk s. specialize (Hm s). unfold bind.
  destruct (m s) as [[e|x] s1]; simpl in *; [done|].
  eapply only_adds_dirs_trans; [exact Hm|]. apply Hk.
Qed.

Lemma keeps_try {A} (m : M A) (h : exn -> M A) :
  keeps m -> (forall e, keeps (h e)) -> keeps (try_except m h).
Proof.
  intros Hm Hh s. specialize (Hm s). unfold try_except.
  destruct (m s) as [[e|x] s1]; simpl in *; [|done].
  eapply only_adds_dirs_trans; [exact Hm|]. apply Hh.
Qed.

Lemma keeps_path_exists (p : string) : keeps (path_exists p).
Proof. intros s. apply only_adds_dirs_refl. Qed.

Lemma keeps_path_isdir (p : string) : keeps (path_isdir p).
Proof. intros s. apply only_adds_dirs_refl. Qed.

Lemma keeps_os_mkdir (p : string) : keeps (os_mkdir p).
Proof.
  intros s. unfold os_mkdir.
  repeat case_match; simpl; try apply only_adds_dirs_refl.
  split; [done|split; [done|]]. set_solver.
Qed.

Lemma keeps_makedirs_fuel (fuel : nat) (name : string) (exist_ok : bool) :
  keeps (makedirs_fuel fuel name exist_ok).
Proof.
  revert name. induction fuel as [|fuel IH]; intros name; [apply keeps_raise|].
  unfold makedirs_fuel at 1; fold makedirs_fuel.
  destruct (py_split name) as [h t].
  destruct (String.eqb t ""); [destruct (py_split h) as [h2 t2]|];
    repeat first [ apply keeps_bind | apply keeps_try | apply keeps_ret
                 | apply keeps_raise | apply keeps_path_exists
                 | apply keeps_path_isdir | apply keeps_os_mkdir | apply IH
                 | progress intros | case_match ].
Qed.

(** [os.makedirs], whether it succeeds or raises, never changes a file or
    the output, and never removes a directory. *)
Theorem makedirs_only_adds_directories (name : string) (exist_ok : bool)
    (s : state) :
  fs_files (st_fs (snd (makedirs name exist_ok s))) = fs_files (st_fs s) /\
  st_stdout (snd (makedirs name exist_ok s)) = st_stdout s /\
  fs_dirs (st_fs s) ⊆ fs_dirs (st_fs (snd (makedirs name exist_ok s))).
Proof. apply keeps_makedirs_fuel. Qed.

Lemma write_text_cases (path text : string) (s : state) :
  (exists e, write_text path text s = (inl e, s)) \/
  (os_isdir (st_fs s) path = false /\
   write_text path text s =
     (inr tt, mk_state (mk_fsys (fs_dirs (st_fs s))
                                (<[ path := text ]> (fs_files (st_fs s))))
                       (st_stdout s))).
Proof.
  destruct s as [[D F] O].
  unfold write_text, bind, open_w. cbn [st_fs fs_dirs fs_files st_stdout].
  destruct (String.eqb path ""); [left; by eexists|].
  destruct (os_isdir (mk_fsys D F) path) eqn:Hd; [left; by eexists|].
  destruct (parent_error (mk_fsys D F) path); [left; by eexists|].
  destruct (trailing_slash path); [left; by eexists|].
  right. split; [done|].
  unfold file_write. cbn [st_fs fs_dirs fs_files st_stdout].
  rewrite lookup_insert_eq, insert_insert_eq. reflexivity.
Qed.

(** A successful run on an output path of ordinary components (as in
    C8) imports the package, writes the rendered lines joined by newlines
    at the output path (and changes no other file), prints the
    confirmation line, only adds directories, and leaves the output path
    a file, not a directory. *)
Theorem generate_success_effect (sys_modules : gmap string namespace)
    (package_name f : string) (cs : list string) (s s' : state) :
  Forall (fun c => component c = true) (cs ++ [f]) ->
  (String.length (join "/" (cs ++ [f])) <= 1000)%nat ->
  generate_stub_file sys_modules package_name (join "/" (cs ++ [f])) s = (inr tt, s') ->
  exists pkg lines,
    sys_modules !! package_name = Some pkg /\
    build_lines package_name pkg s = (inr lines, s) /\
    fs_files (st_fs s') =
      <[ join "/" (cs ++ [f]) := join nl lines ]> (fs_files (st_fs s)) /\
    st_stdout s' =
      (st_stdout s ++ [("Generated: " ++ join "/" (cs ++ [f]))%string])%list /\
    fs_dirs (st_fs s) ⊆ fs_dirs (st_fs s') /\
    os_isdir (st_fs s') (join "/" (cs ++ [f])) = false.
Proof.
  intros _ _. set (output_path := join "/" (cs ++ [f])).
  destruct (sys_modules !! package_name) as [pkg|] eqn:Hpkg.
  2:{ unfold generate_stub_file, import_module, bind, raise. rewrite Hpkg.
      discriminate. }
  rewrite (generate_imported _ _ _ _ _ Hpkg). intros Hrun.
  exists pkg, (render_spec package_name (records_of pkg)).
  split; [done|split; [apply build_lines_run|]].
  pose proof (keeps_makedirs_fuel (S (String.length (dirname output_path)))
                (dirname output_path) true s) as Hk.
  unfold makedirs, bind at 1 in Hrun.
  destruct (makedirs_fuel _ (dirname output_path) true s) as [[e|[]] s1];
    [discriminate|]. simpl in Hk. destruct Hk as (Hf & Ho & Hd).
  unfold bind at 1 in Hrun.
  destruct (write_text_cases output_path
              (join nl (render_spec package_name (records_of pkg))) s1)
    as [[e Hw]|[Hdir Hw]]; rewrite Hw in Hrun; [discriminate|].
  unfold print in Hrun. injection Hrun as <-. simpl.
  rewrite Hf, Ho. split; [done|split; [done|split; [done|]]].
  destruct s1 as [[D F] O]. done.
Qed.

Lemma generate_success_effect_witness :
  exists s',
    generate_stub_file sys_sample "kand" (join "/" (["a"; "b"; "c"] ++ ["out.stub"]))
      state_sample = (inr tt, s') /\
    exists pkg lines,
      sys_sample !! "kand" = Some pkg /\
      build_lines "kand" pkg state_sample = (inr lines, state_sample) /\
      fs_files (st_fs s') =
        <[ join "/" (["a"; "b"; "c"] ++ ["out.stub"]) := join nl lines ]>
          (fs_files (st_fs state_sample)) /\
      st_stdout s' =
        (st_stdout state_sample ++
           [("Generated: " ++ join "/" (["a"; "b"; "c"] ++ ["out.stub"]))%string])%list /\
      fs_dirs (st_fs state_sample) ⊆ fs_dirs (st_fs s') /\
      os_isdir (st_fs s') (join "/" (["a"; "b"; "c"] ++ ["out.stub"])) = false.
Proof.
  eexists. split; [vm_compute; reflexivity|].
  apply (generate_success_effect sys_sample "kand" "out.stub" ["a"; "b"; "c"]
           state_sample).
  - repeat constructor.
  - vm_compute. lia.
  - vm_compute. reflexivity.
Defined.

Lemma out_not_prefix (cs : list string) (f : string) :
  join "/" (cs ++ [f]) ∉ prefixes cs.
Proof.
  intros (k & Hk & Hk2)%elem_of_prefixes.
  pose proof (join_take_length cs k) as Hl. rewrite <- Hk in Hl.
  destruct (decide (cs = [])) as [->|Hne].
  - simpl in Hk2. lia.
  - rewrite join_snoc_length in Hl by done. lia.
Qed.

Lemma dir_prefix_in (cs : list string) :
  cs <> [] -> join "/" cs ∈ prefixes cs.
Proof.
  intros Hne. apply elem_of_prefixes. exists (length cs).
  rewrite take_ge by done. split; [done|]. destruct cs; simpl; [done|lia].
Qed.

Lemma generate_nested_run (sys_modules : gmap string namespace)
    (package_name f : string) (cs : list string) (pkg : namespace)
    (j : nat) (s : state) :
  sys_modules !! package_name = Some pkg ->
  cs <> [] -> Forall (fun c => clean c = true) cs -> clean f = true ->
  j <= length cs ->
  (forall k, 1 <= k <= j -> join "/" (take k cs) ∈ fs_dirs (st_fs s)) ->
  (forall k, j < k <= length cs ->
     os_exists (st_fs s) (join "/" (take k cs)) = false) ->
  join "/" (cs ++ [f]) ∉ fs_dirs (st_fs s) ->
  generate_stub_file sys_modules package_name (join "/" (cs ++ [f])) s =
    (inr tt,
     mk_state
       (mk_fsys (fs_dirs (st_fs s) ∪ list_to_set (prefixes cs))
          (<[ join "/" (cs ++ [f]) :=
                join nl (render_spec package_name (records_of pkg)) ]>
             (fs_files (st_fs s))))
       (st_stdout s ++ [("Generated: " ++ join "/" (cs ++ [f]))%string])%list).
Proof.
  intros Hpkg Hne Hcl Hf Hj Hdir Hnex Hout.
  pose proof (out_not_prefix cs f) as HoutP.
  pose proof (dir_prefix_in cs Hne) as HhP.
  rewrite (generate_imported _ _ _ _ _ Hpkg).
  unfold dirname. rewrite py_split_join_snoc by done. simpl fst.
  unfold makedirs.
  erewrite bind_run;
    [|apply (makedirs_creates cs Hcl Hne _ s j); [apply length_le_join|done..]].
  assert (HdO : dirname (join "/" (cs ++ [f])) = join "/" cs).
  { unfold dirname. by rewrite py_split_join_snoc. }
  set (out := join "/" (cs ++ [f])) in *.
  assert (Ht : tidy out) by (apply tidy_join; [by destruct cs|
    apply Forall_app; split; [done|by constructor]]).
  assert (HtH : tidy (join "/" cs)) by (by apply tidy_join).
  erewrite bind_run; cycle 1.
  { apply write_text_run; [done|cbn [st_fs fs_dirs]; set_solver|].
    right. rewrite HdO, tidy_isdir by done. cbn [st_fs fs_dirs].
    apply bool_decide_true. set_solver. }
  reflexivity.
Qed.

(** Running the script a second time on the same package and output path,
    after a first run that created the directories, succeeds again and
    leaves the file system exactly as the first run left it; only the
    confirmation line is printed once more.  The output path is as in
    C8. *)
Theorem generate_twice_same_filesystem (sys_modules : gmap string namespace)
    (package_name f : string) (cs : list string) (pkg : namespace)
    (j : nat) (s : state) :
  sys_modules !! package_name = Some pkg ->
  cs <> [] -> Forall (fun c => component c = true) (cs ++ [f]) ->
  (String.length (join "/" (cs ++ [f])) <= 1000)%nat ->
  j <= length cs ->
  (forall k, 1 <= k <= j -> join "/" (take k cs) ∈ fs_dirs (st_fs s)) ->
  (forall k, j < k <= length cs ->
     os_exists (st_fs s) (join "/" (take k cs)) = false) ->
  join "/" (cs ++ [f]) ∉ fs_dirs (st_fs s) ->
  exists s1,
    generate_stub_file sys_modules package_name (join "/" (cs ++ [f])) s =
      (inr tt, s1) /\
    generate_stub_file sys_modules package_name (join "/" (cs ++ [f])) s1 =
      (inr tt, mk_state (st_fs s1)
                 (st_stdout s1 ++ [("Generated: " ++ join "/" (cs ++ [f]))%string])%list).
Proof.
  intros Hpkg Hne Hcomp _ Hj Hdir Hnex Hout.
  destruct (components_clean cs f Hcomp) as [Hcl Hf].
  eexists. split; [by eapply generate_nested_run|].
  pose proof (out_not_prefix cs f) as HoutP.
  rewrite (generate_nested_run _ _ _ _ pkg (length cs)); try done.
  - cbn [st_fs fs_dirs fs_files st_stdout]. do 3 f_equal; [set_solver|apply insert_insert_eq].
  - intros k Hk. simpl. apply elem_of_union_r, elem_of_list_to_set.
    apply elem_of_prefixes. by exists k.
  - intros k Hk. lia.
  - simpl. set_solver.
Qed.

Lemma generate_twice_same_filesystem_witness :
  exists s1,
    generate_stub_file sys_sample "kand" (join "/" (["a"; "b"; "c"] ++ ["out.stub"]))
      state_sample = (inr tt, s1) /\
    generate_stub_file sys_sample "kand" (join "/" (["a"; "b"; "c"] ++ ["out.stub"]))
      s1 =
      (inr tt, mk_state (st_fs s1)
         (st_stdout s1 ++
            [("Generated: " ++ join "/" (["a"; "b"; "c"] ++ ["out.stub"]))%string])%list).
Proof.
  apply (generate_twice_same_filesystem sys_sample "kand" "out.stub"
           ["a"; "b"; "c"] kand_sample 1 state_sample).
  - vm_compute. reflexivity.
  - discriminate.
  - repeat constructor.
  - vm_compute. lia.
  - simpl. lia.
  - intros k Hk. assert (k = 1) as -> by lia.
    unfold state_sample. simpl. apply elem_of_singleton. reflexivity.
  - intros k Hk. simpl in Hk.
    destruct k as [|[|[|[|k]]]]; [lia|lia|vm_compute; reflexivity|
                                 vm_compute; reflexivity|lia].
  - unfold state_sample. simpl. rewrite elem_of_singleton.
    intros H. vm_compute in H. discriminate.
Defined.

Lemma rev_chars_trailing_slash (p : string) :
  rev (chars (p ++ "/")) = "/"%char :: rev (chars p).
Proof. rewrite chars_app. rewrite rev_app_distr. done. Qed.

Lemma py_split_trailing_slash (cs : list string) :
  cs <> [] -> Forall (fun c => clean c = true) cs ->
  py_split (join "/" cs ++ "/") = (join "/" cs, "").
Proof.
  intros Hne Hcl. destruct (tidy_join cs Hne Hcl) as (x & l & Hr & Hx).
  unfold py_split.
  change (list_ascii_of_string (join "/" cs ++ "/"))
    with (chars (join "/" cs ++ "/")).
  rewrite rev_chars_trailing_slash, Hr.
  assert (Hex : existsb not_slash ("/"%char :: x :: l) = true).
  { apply existsb_exists. exists x. split; [right; left; done|].
    unfold not_slash. by rewrite Hx. }
  assert (Htw : take_while not_slash ("/"%char :: x :: l) = []) by reflexivity.
  assert (Hdw : drop_while not_slash ("/"%char :: x :: l) = "/"%char :: x :: l)
    by reflexivity.
  assert (Hds : drop_while is_slash ("/"%char :: x :: l) = drop_while is_slash (x :: l))
    by reflexivity.
  rewrite Htw, Hdw, Hex, Hds, drop_while_stop by done.
  rewrite <- Hr, rev_involutive.
  unfold chars. by rewrite string_of_list_ascii_of_string.
Qed.

Lemma os_norm_trailing_slash (cs : list string) :
  cs <> [] -> Forall (fun c => clean c = true) cs ->
  os_norm (join "/" cs ++ "/") = join "/" cs.
Proof.
  intros Hne Hcl. destruct (tidy_join cs Hne Hcl) as (x & l & Hr & Hx).
  unfold os_norm.
  change (list_ascii_of_string (join "/" cs ++ "/"))
    with (chars (join "/" cs ++ "/")).
  assert (Hex : existsb not_slash (chars (join "/" cs ++ "/")) = true).
  { apply existsb_exists. exists x. split.
    - apply in_rev. rewrite rev_chars_trailing_slash, Hr. right. left. done.
    - unfold not_slash. by rewrite Hx. }
  assert (Hds : drop_while is_slash ("/"%char :: x :: l) = drop_while is_slash (x :: l))
    by reflexivity.
  rewrite Hex, rev_chars_trailing_slash, Hr, Hds, drop_while_stop by done.
  rewrite <- Hr, rev_involutive. unfold chars.
  by rewrite string_of_list_ascii_of_string.
Qed.

(** An output path ending with a slash never gets a file: the run creates
    the missing directories of the path and then raises
    [IsADirectoryError] at [open], with no file written and nothing
    printed.  The components are ordinary names, as in C8. *)
Theorem trailing_slash_output_fails (sys_modules : gmap string namespace)
    (package_name : string) (cs : list string) (pkg : namespace)
    (j : nat) (s : state) :
  sys_modules !! package_name = Some pkg ->
  cs <> [] -> Forall (fun c => component c = true) cs ->
  (String.length (join "/" cs) <= 1000)%nat ->
  j <= length cs ->
  (forall k, 1 <= k <= j -> join "/" (take k cs) ∈ fs_dirs (st_fs s)) ->
  (forall k, j < k <= length cs ->
     os_exists (st_fs s) (join "/" (take k cs)) = false) ->
  generate_stub_file sys_modules package_name (join "/" cs ++ "/") s =
    (inl IsADirectoryError,
     mk_state (mk_fsys (fs_dirs (st_fs s) ∪ list_to_set (prefixes cs))
                       (fs_files (st_fs s)))
              (st_stdout s)).
Proof.
  intros Hpkg Hne Hcomp _ Hj Hdir Hnex.
  assert (Hcl : Forall (fun c => clean c = true) cs)
    by (eapply Forall_impl; [exact Hcomp|]; intros c; apply component_clean).
  rewrite (generate_imported _ _ _ _ _ Hpkg).
  unfold dirname. rewrite py_split_trailing_slash by done. simpl fst.
  unfold makedirs.
  erewrite bind_run;
    [|apply (makedirs_creates cs Hcl Hne _ s j); [apply length_le_join|done..]].
  assert (Hnz : String.eqb (join "/" cs ++ "/") "" = false).
  { apply String.eqb_neq. intros H.
    apply (f_equal String.length) in H. rewrite string_length_app in H.
    simpl in H. lia. }
  set (s1 := mk_state _ _).
  assert (Hd : os_isdir (st_fs s1) (join "/" cs ++ "/") = true).
  { unfold os_isdir. rewrite Hnz, os_norm_trailing_slash by done.
    cbn [s1 st_fs fs_dirs negb andb].
    rewrite (bool_decide_true (_ ∈ _)); [by rewrite orb_true_r|].
    apply elem_of_union_r, elem_of_list_to_set. by apply dir_prefix_in. }
  unfold bind at 1, write_text, bind at 1, open_w. rewrite Hnz, Hd. reflexivity.
Qed.

Lemma trailing_slash_output_fails_witness :
  generate_stub_file sys_sample "kand" (join "/" ["a"; "b"] ++ "/") state_sample =
    (inl IsADirectoryError,
     mk_state (mk_fsys (fs_dirs (st_fs state_sample) ∪
                          list_to_set (prefixes ["a"; "b"]))
                       (fs_files (st_fs state_sample)))
              (st_stdout state_sample)).
Proof.
  apply (trailing_slash_output_fails sys_sample "kand" ["a"; "b"] kand_sample 1
           state_sample).
  - vm_compute. reflexivity.
  - discriminate.
  - repeat constructor.
  - vm_compute. lia.
  - simpl. lia.
  - intros k Hk. assert (k = 1) as -> by lia.
    unfold state_sample. simpl. apply elem_of_singleton. reflexivity.
  - intros k Hk. simpl in Hk. assert (k = 2) as -> by lia.
    vm_compute. reflexivity.
Defined.

(** When the directory of the output path is an existing regular file
    (its own parent directories existing), [os.makedirs] raises
    [FileExistsError] even with [exist_ok=True], and the run stops with
    the state unchanged. *)
Theorem output_dir_is_file_fails (sys_modules : gmap string namespace)
    (package_name f : string) (cs : list string) (pkg : namespace)
    (s : state) :
  sys_modules !! package_name = Some pkg ->
  cs <> [] -> Forall (fun c => clean c = true) cs -> clean f = true ->
  (forall k, 1 <= k < length cs -> join "/" (take k cs) ∈ fs_dirs (st_fs s)) ->
  join "/" cs ∉ fs_dirs (st_fs s) ->
  is_file (st_fs s) (join "/" cs) = true ->
  generate_stub_file sys_modules package_name (join "/" (cs ++ [f])) s =
    (inl FileExistsError, s).
Proof.
  intros Hpkg Hne Hcl Hf Hdir HnD Hfile.
  rewrite (generate_imported _ _ _ _ _ Hpkg).
  unfold dirname. rewrite py_split_join_snoc by done. simpl fst.
  pose proof (tidy_join cs Hne Hcl) as HtP.
  destruct (exists_last Hne) as (cs' & c & Ecs).
  assert (Hc : clean c = true).
  { rewrite Ecs in Hcl. apply Forall_app in Hcl as [_ Hc].
    by apply Forall_cons in Hc as [Hc _]. }
  assert (Hcl' : Forall (fun c => clean c = true) cs').
  { rewrite Ecs in Hcl. by apply Forall_app in Hcl as [Hcl' _]. }
  assert (Hce : String.eqb c "" = false).
  { unfold clean in Hc. apply andb_true_iff in Hc as [Hc _].
    apply andb_true_iff in Hc as [Hc _]. by apply negb_true_iff in Hc. }
  (* the parent of [join cs] is the current directory or a directory *)
  assert (Hhead : (negb (String.eqb (join "/" cs') "") && negb false
                   && negb (os_exists (st_fs s) (join "/" cs')))%bool = false).
  { destruct (decide (cs' = [])) as [->|Hne']; [done|].
    assert (Hin : join "/" cs' ∈ fs_dirs (st_fs s)).
    { assert (Hn : take (length cs') cs = cs').
      { rewrite Ecs, take_app_le, take_ge by lia. done. }
      rewrite <- Hn. apply Hdir. rewrite Ecs, length_app. simpl.
      destruct cs'; simpl; [done|lia]. }
    unfold os_exists. rewrite tidy_isdir by (by apply tidy_join).
    rewrite bool_decide_true by done. by rewrite !andb_false_r. }
  assert (Hsp : py_split (join "/" cs) = (join "/" cs', c)).
  { rewrite Ecs. by apply py_split_join_snoc. }
  assert (Hmk : makedirs_fuel (S (String.length (join "/" cs))) (join "/" cs)
                  true s = (inl FileExistsError, s)).
  { unfold makedirs_fuel at 1; fold makedirs_fuel.
    rewrite Hsp, Hce. cbv beta iota.
    erewrite bind_run; cycle 1.
    { erewrite bind_run; [|reflexivity]. cbv beta. rewrite Hce, Hhead. reflexivity. }
    cbv beta iota.
    unfold try_except, os_mkdir.
    rewrite (proj2 (String.eqb_neq (join "/" cs) "") (tidy_ne _ HtP)).
    unfold os_exists. rewrite tidy_isdir by done.
    rewrite (bool_decide_false (_ ∈ _)) by done. rewrite Hfile. simpl.
    rewrite (proj2 (String.eqb_neq (join "/" cs) "") (tidy_ne _ HtP)). simpl.
    unfold bind, path_isdir. rewrite tidy_isdir by done.
    rewrite (bool_decide_false (_ ∈ _)) by done. reflexivity. }
  unfold makedirs, bind at 1. rewrite Hmk. reflexivity.
Qed.

Lemma output_dir_is_file_fails_witness :
  generate_stub_file sys_sample "kand" (join "/" (["a"; "b"] ++ ["out.pyi"]))
    state_file_sample = (inl FileExistsError, state_file_sample).
Proof.
  apply (output_dir_is_file_fails sys_sample "kand" "out.pyi" ["a"; "b"]
           kand_sample state_file_sample).
  - vm_compute. reflexivity.
  - discriminate.
  - repeat constructor.
  - reflexivity.
  - intros k Hk. simpl in Hk. assert (k = 1) as -> by lia.
    unfold state_file_sample. simpl. apply elem_of_singleton. reflexivity.
  - unfold state_file_sample. simpl. rewrite elem_of_singleton.
    intros H. vm_compute in H. discriminate.
  - vm_compute. reflexivity.
Defined.

Lemma join_snoc_sep (sep : string) (cs : list string) (c : string) :
  cs <> [] -> join sep (cs ++ [c]) = (join sep cs ++ sep ++ c)%string.
Proof.
  unfold join. induction cs as [|x [|y ys] IH]; intros Hne; [done|done|].
  change (String.concat sep ((x :: y :: ys) ++ [c])%list)
    with (x ++ sep ++ String.concat sep ((y :: ys) ++ [c])%list)%string.
  change (String.concat sep (x :: y :: ys))
    with (x ++ sep ++ String.concat sep (y :: ys))%string.
  rewrite IH by done. by rewrite !string_app_assoc.
Qed.

Lemma render_ends_blank (package_name : string) (recs : list callable_record) :
  exists L, L <> [] /\ render_spec package_name recs = (L ++ [""])%list.
Proof.
  unfold render_spec. destruct (decide (recs = [])) as [->|Hne].
  - exists (take 5 (header_lines package_name)). split; [discriminate|].
    reflexivity.
  - destruct (exists_last Hne) as (rs & r & ->).
    exists (header_lines package_name ++ concat (map record_block rs) ++
            [("def " ++ rec_name r ++ rec_signature_text r ++ ":")%string] ++
            match rec_doc_lines r with
            | [] => [(indent ++ tq ++ fallback_doc ++ tq)%string]
            | ls => [(indent ++ tq)%string]
                      ++ map (fun l => (indent ++ l)%string) ls
                      ++ [(indent ++ tq)%string]
            end ++ [(indent ++ "...")%string])%list.
    split; [intros H; apply app_eq_nil in H as [H _]; discriminate|].
    rewrite map_app, concat_app. rewrite <- !app_assoc. f_equal. f_equal.
    cbn [map concat]. rewrite app_nil_r. unfold record_block.
    reflexivity.
Qed.

(** The text written to the stub file always ends with a newline: the
    last line of the header and of every block is empty. *)
Theorem stub_text_ends_with_newline (package_name : string) (pkg : namespace)
    (s : state) :
  exists lines t,
    build_lines package_name pkg s = (inr lines, s) /\
    join nl lines = (t ++ nl)%string.
Proof.
  destruct (render_ends_blank package_name (records_of pkg)) as (L & HL & Hr).
  exists (render_spec package_name (records_of pkg)), (join nl L).
  split; [apply build_lines_run|].
  rewrite Hr, join_snoc_sep by done. by rewrite string_app_nil_r.
Qed.

(** [os.path.split] on a path of clean components [c1/.../cn/f] gives the
    directory [c1/.../cn] (empty when the path is a bare name) and the
    last component: the [dirname] on line 72. *)
Theorem split_clean_path (cs : list string) (f : string) :
  Forall (fun c => clean c = true) cs -> clean f = true ->
  py_split (join "/" (cs ++ [f])) = (join "/" cs, f) /\
  dirname (join "/" (cs ++ [f])) = join "/" cs.
Proof.
  intros Hcs Hf. split; [by apply py_split_join_snoc|].
  unfold dirname. by rewrite py_split_join_snoc.
Qed.

Lemma split_clean_path_witness :
  Forall (fun c => clean c = true) ["python"; "kand"] /\ clean "_kand.pyi" = true /\
  py_split (join "/" (["python"; "kand"] ++ ["_kand.pyi"])) =
    (join "/" ["python"; "kand"], "_kand.pyi") /\
  dirname (join "/" (["python"; "kand"] ++ ["_kand.pyi"])) = join "/" ["python"; "kand"].
Proof.
  assert (H1 : Forall (fun c => clean c = true) ["python"; "kand"])
    by (repeat constructor).
  assert (H2 : clean "_kand.pyi" = true) by reflexivity.
  split; [exact H1|split; [exact H2|]].
  apply (split_clean_path _ _ H1 H2).
Defined.
